(** * ez-opendata: a shallow embedding of [ez-opendata.js]

    The library queries Overpass, Wikipedia, Wikidata and Wikimedia Commons
    and reshapes the JSON replies.  Every exported function builds a request,
    awaits one [fetch] and transforms the decoded body.  The embedding keeps
    that shape: the transport is a function [fetch] from requests to decoded
    bodies (or a failure), and each exported function is a function of
    [fetch] and its JavaScript arguments into an [outcome].

    Scope of the model.
    - Strings are sequences of 8-bit characters; [trim] and [toLowerCase]
      are the ASCII restrictions of the JavaScript methods, and [encodeURI]
      escapes every octet above 127 (the UTF-8 octets of the text).
    - Numbers are integers printed in decimal (what JavaScript prints for
      the ids, limits and radii the library handles).
    - Objects list their own properties in creation order.  JavaScript
      enumerates array-index keys first; the only enumeration in the library
      ([Object.keys] in [extractDiets]) keeps keys starting with [diet], so
      the difference cannot be observed.
    - Property reads look at own properties only (decoded JSON has no
      interesting prototype properties under the names the library reads). *)

From Stdlib Require Import List String Ascii ZArith Bool Arith Lia.
From Stdlib Require Import DecimalString Sorted Permutation.
Import ListNotations.
Local Open Scope string_scope.

(** ** JavaScript values *)

#[local] Set Warnings "-register-all".

Inductive value : Type :=
| VUndef
| VNull
| VBool (b : bool)
| VNum (z : Z)
| VStr (s : string)
| VArr (items : list value)
| VObj (props : list (string * value)).

(** An object: its own enumerable properties, oldest first. *)
Definition object : Type := list (string * value).

Inductive error : Type :=
| TypeError                 (* a read on undefined/null, a call of a non-function, ... *)
| Rejected (reason : value) (* [Promise.reject(reason)] *)
| NetworkError              (* [fetch] failed *)
| ParseError                (* [response.json()] failed *)
| OutOfModel.               (* behaviour the value model cannot represent *)

Inductive outcome (A : Type) : Type :=
| Ok (a : A)
| Throw (e : error).
Arguments Ok {A} a.
Arguments Throw {A} e.

Definition bind {A B} (m : outcome A) (k : A -> outcome B) : outcome B :=
  match m with
  | Ok a => k a
  | Throw e => Throw e
  end.

Notation "x <- m ;; k" := (bind m (fun x => k))
  (at level 61, m at next level, right associativity).

Fixpoint mapM {A B} (f : A -> outcome B) (l : list A) : outcome (list B) :=
  match l with
  | [] => Ok []
  | a :: r => b <- f a ;; bs <- mapM f r ;; Ok (b :: bs)
  end.

Fixpoint filterM {A} (f : A -> outcome bool) (l : list A) : outcome (list A) :=
  match l with
  | [] => Ok []
  | a :: r =>
      keep <- f a ;;
      rs <- filterM f r ;;
      Ok (if keep then a :: rs else rs)
  end.

(** The verdict of a fallible predicate, [false] where it throws. *)
Definition verdict {A} (f : A -> outcome bool) (a : A) : bool :=
  match f a with
  | Ok b => b
  | Throw _ => false
  end.

(** ** Strings *)

Definition dquote : string := String (ascii_of_nat 34) EmptyString.
Definition nl : string := String (ascii_of_nat 10) EmptyString.

Fixpoint spaces (n : nat) : string :=
  match n with
  | O => EmptyString
  | S k => String " " (spaces k)
  end.

Definition string_of_Z (z : Z) : string := NilZero.string_of_int (Z.to_int z).

(** [s.split(sep)] for a one-character separator. *)
Fixpoint split_on (sep : ascii) (s : string) : list string :=
  match s with
  | EmptyString => [EmptyString]
  | String c r =>
      if Ascii.eqb c sep then EmptyString :: split_on sep r
      else match split_on sep r with
           | [] => [String c EmptyString]
           | h :: t => String c h :: t
           end
  end.

(** White space and line terminators below 128. *)
Definition is_space (c : ascii) : bool :=
  let n := nat_of_ascii c in
  (Nat.eqb n 32) || ((Nat.leb 9 n) && (Nat.leb n 13)).

Fixpoint trim_start (s : string) : string :=
  match s with
  | EmptyString => EmptyString
  | String c r => if is_space c then trim_start r else s
  end.

Fixpoint trim_end (s : string) : string :=
  match s with
  | EmptyString => EmptyString
  | String c r =>
      match trim_end r with
      | EmptyString => if is_space c then EmptyString else String c EmptyString
      | r' => String c r'
      end
  end.

Definition trim (s : string) : string := trim_end (trim_start s).

Definition lower_char (c : ascii) : ascii :=
  let n := nat_of_ascii c in
  if (Nat.leb 65 n) && (Nat.leb n 90) then ascii_of_nat (n + 32) else c.

Fixpoint toLowerCase (s : string) : string :=
  match s with
  | EmptyString => EmptyString
  | String c r => String (lower_char c) (toLowerCase r)
  end.

Definition startsWith (s p : string) : bool := String.prefix p s.

Fixpoint chars (s : string) : list string :=
  match s with
  | EmptyString => []
  | String c r => String c EmptyString :: chars r
  end.

(** ** Conversions *)

Definition truthy (v : value) : bool :=
  match v with
  | VUndef | VNull => false
  | VBool b => b
  | VNum z => negb (Z.eqb z 0)
  | VStr s => negb (String.eqb s EmptyString)
  | VArr _ | VObj _ => true
  end.

(** [String(v)], as a template literal applies it. *)
Fixpoint to_string (v : value) : string :=
  match v with
  | VUndef => "undefined"
  | VNull => "null"
  | VBool true => "true"
  | VBool false => "false"
  | VNum z => string_of_Z z
  | VStr s => s
  | VArr items =>
      (fix join (l : list value) : string :=
         match l with
         | [] => EmptyString
         | x :: r =>
             let sx := match x with
                       | VUndef | VNull => EmptyString
                       | _ => to_string x
                       end in
             match r with
             | [] => sx
             | _ => sx ++ "," ++ join r
             end
         end) items
  | VObj _ => "[object Object]"
  end.

(** [items.join(sep)]. *)
Fixpoint join (sep : string) (items : list value) : string :=
  match items with
  | [] => EmptyString
  | x :: r =>
      let sx := match x with
                | VUndef | VNull => EmptyString
                | _ => to_string x
                end in
      match r with
      | [] => sx
      | _ => sx ++ sep ++ join sep r
      end
  end.

(** A canonical array index: the decimal numeral of a natural number. *)
Definition index_of_key (k : string) : option nat :=
  match NilZero.uint_of_string k with
  | Some u =>
      let n := Nat.of_uint u in
      if String.eqb (NilZero.string_of_uint (Nat.to_uint n)) k then Some n else None
  | None => None
  end.

(** ** Objects *)

Fixpoint obj_get (o : object) (k : string) : value :=
  match o with
  | [] => VUndef
  | (k', v) :: r => if String.eqb k' k then v else obj_get r k
  end.

Fixpoint obj_has (o : object) (k : string) : bool :=
  match o with
  | [] => false
  | (k', _) :: r => String.eqb k' k || obj_has r k
  end.

(** [o[k] = v]: an existing property keeps its place, a new one goes last. *)
Fixpoint obj_set (o : object) (k : string) (v : value) : object :=
  match o with
  | [] => [(k, v)]
  | (k', v') :: r =>
      if String.eqb k' k then (k, v) :: r else (k', v') :: obj_set r k v
  end.

(** [delete o[k]]. *)
Definition obj_delete (o : object) (k : string) : object :=
  filter (fun kv => negb (String.eqb (fst kv) k)) o.

(** [Object.keys(o)]. *)
Definition obj_keys (o : object) : list string := map fst o.

Fixpoint indexed (i : nat) (l : list value) : object :=
  match l with
  | [] => []
  | x :: r => (NilZero.string_of_uint (Nat.to_uint i), x) :: indexed (S i) r
  end.

(** The own enumerable properties a spread [...v] copies. *)
Definition own_props (v : value) : object :=
  match v with
  | VObj o => o
  | VArr items => indexed 0 items
  | VStr s => indexed 0 (map VStr (chars s))
  | _ => []
  end.

(** [{...target, ...source}] applied to an object under construction. *)
Definition obj_assign (target source : object) : object :=
  fold_left (fun o kv => obj_set o (fst kv) (snd kv)) source target.

(** [v[k]] / [v.k]: throws on undefined and null. *)
Definition get_prop (v : value) (k : string) : outcome value :=
  match v with
  | VUndef | VNull => Throw TypeError
  | VObj o => Ok (obj_get o k)
  | VArr items =>
      if String.eqb k "length" then Ok (VNum (Z.of_nat (List.length items)))
      else match index_of_key k with
           | Some i => Ok (nth i items VUndef)
           | None => Ok VUndef
           end
  | VStr s =>
      if String.eqb k "length" then Ok (VNum (Z.of_nat (String.length s)))
      else match index_of_key k with
           | Some i => Ok (nth i (map VStr (chars s)) VUndef)
           | None => Ok VUndef
           end
  | VBool _ | VNum _ => Ok VUndef
  end.

(** [v.k = x] in strict mode (the file is an ES module), for a key that is
    neither an index nor [length]. *)
Definition set_prop (v : value) (k : string) (x : value) : outcome value :=
  match v with
  | VObj o => Ok (VObj (obj_set o k x))
  | VArr _ => Throw OutOfModel
  | _ => Throw TypeError
  end.

(** ** The transport *)

Record request : Type := mkRequest {
  req_url : string;
  req_method : string;
  req_body : option string
}.

Definition GET (url : string) : request := mkRequest url "GET" None.
Definition POST (url body : string) : request := mkRequest url "POST" (Some body).

(** [f(x = d)]: a default parameter applies when the argument is undefined. *)
Definition default (arg d : value) : value :=
  match arg with
  | VUndef => d
  | _ => arg
  end.

(** ** Insertion-ordered [Set] and [Map] of diet labels

    A diet label is a string or [undefined] ([None]).  [Set] and [Map]
    iterate in insertion order; adding or setting an existing key keeps its
    position. *)

Definition label : Type := option string.

Definition label_eqb (a b : label) : bool :=
  match a, b with
  | Some x, Some y => String.eqb x y
  | None, None => true
  | _, _ => false
  end.

Definition set_has (s : list label) (d : label) : bool := existsb (label_eqb d) s.

Definition set_add (s : list label) (d : label) : list label :=
  if set_has s d then s else s ++ [d].

Definition dietsMap : Type := list (label * nat).

Fixpoint map_has (m : dietsMap) (d : label) : bool :=
  match m with
  | [] => false
  | (k, _) :: r => label_eqb k d || map_has r d
  end.

Fixpoint map_get (m : dietsMap) (d : label) : nat :=
  match m with
  | [] => 0
  | (k, n) :: r => if label_eqb k d then n else map_get r d
  end.

Fixpoint map_set (m : dietsMap) (d : label) (n : nat) : dietsMap :=
  match m with
  | [] => [(d, n)]
  | (k, n') :: r => if label_eqb k d then (k, n) :: r else (k, n') :: map_set r d n
  end.

(** [Array.prototype.sort(cmp)]: the standard requires a stable sort, and
    for a consistent comparator every stable sort returns the same array.
    Insertion from the right is one. *)
Section Sort.
Context {A : Type} (cmp : A -> A -> Z).

Fixpoint insert_sorted (x : A) (l : list A) : list A :=
  match l with
  | [] => [x]
  | y :: r => if Z.leb (cmp x y) 0 then x :: y :: r else y :: insert_sorted x r
  end.

Fixpoint sort (l : list A) : list A :=
  match l with
  | [] => []
  | x :: r => insert_sorted x (sort r)
  end.
End Sort.

(** ** The exported functions *)

Section Client.
Variable fetch : request -> outcome value.

(** *** openstreetmapGetPOIs *)

(** The parameter pattern [[key, value]]: array destructuring iterates its
    argument, so anything but an array or a string throws. *)
Definition destructure_pair (c : value) : outcome (value * value) :=
  match c with
  | VArr items => Ok (nth 0 items VUndef, nth 1 items VUndef)
  | VStr s => let cs := map VStr (chars s) in Ok (nth 0 cs VUndef, nth 1 cs VUndef)
  | _ => Throw TypeError
  end.

Definition tag_filter (kind : string) (bbox key val : value) : string :=
  kind ++ "[" ++ dquote ++ to_string key ++ dquote ++ "=" ++ dquote
       ++ to_string val ++ dquote ++ "](" ++ to_string bbox ++ ");".

Definition category_clause (bbox key val : value) : string :=
  nl ++ spaces 10 ++ tag_filter "node" bbox key val ++
  nl ++ spaces 10 ++ tag_filter "way" bbox key val ++
  nl ++ spaces 10 ++ tag_filter "relation" bbox key val.

(** [categories.forEach(([key, value]) => { quest += p })]. *)
Fixpoint build_quest (bbox : value) (categories : list value) (quest : string)
  : outcome string :=
  match categories with
  | [] => Ok quest
  | c :: r =>
      kv <- destructure_pair c ;;
      build_quest bbox r (quest ++ category_clause bbox (fst kv) (snd kv))
  end.

Definition overpass_url : string := "https://overpass-api.de/api/interpreter".

Definition overpass_body (quest : string) : string :=
  nl ++ spaces 8 ++ "[out:json][timeout:25];" ++
  nl ++ spaces 8 ++ "(" ++
  nl ++ spaces 12 ++ quest ++
  nl ++ spaces 8 ++ ");" ++
  nl ++ spaces 8 ++ "out body;" ++
  nl ++ spaces 8 ++ ">;" ++
  nl ++ spaces 8 ++ "out skel qt;".

Definition osm_site : string := "https://www.openstreetmap.org/".

(** The body of the [map] callback. *)
Definition normalize_poi (p : value) : outcome value :=
  tags <- get_prop p "tags" ;;
  let p1 := obj_assign (obj_assign [] (own_props p)) (own_props tags) in
  let p2 := obj_delete p1 "tags" in
  let type := if truthy (obj_get p2 "members") then VStr "relation"
              else obj_get p2 "type" in
  let p3 := if negb (truthy (obj_get p2 "website"))
               && truthy (obj_get p2 "contact:website")
            then obj_set p2 "website" (obj_get p2 "contact:website")
            else p2 in
  let p4 := obj_set p3 "osm_url"
              (VStr (osm_site ++ to_string type ++ "/" ++ to_string (obj_get p3 "id"))) in
  let p5 := obj_set p4 "osm_url_edit"
              (VStr (osm_site ++ "edit?" ++ to_string type ++ "="
                              ++ to_string (obj_get p4 "id"))) in
  Ok (VObj p5).

(** The [filter] callback [(p) => p.tags]. *)
Definition has_tags (p : value) : outcome bool :=
  tags <- get_prop p "tags" ;; Ok (truthy tags).

Definition openstreetmapGetPOIs (bbox : value) (categories : list value)
  : outcome (list value) :=
  quest <- build_quest bbox categories EmptyString ;;
  data <- fetch (POST overpass_url (overpass_body quest)) ;;
  elements <- get_prop data "elements" ;;
  match elements with
  | VArr els => kept <- filterM has_tags els ;; mapM normalize_poi kept
  | _ => Throw TypeError
  end.

(** *** openstreetmapGetRestaurants, getFoodShops *)

Definition openstreetmapGetRestaurants : outcome (list value) :=
  openstreetmapGetPOIs (VStr "37.8,-122.3,37.8,-122.2")
    [ VObj [("key", VStr "amenity"); ("value", VStr "cafe")];
      VObj [("key", VStr "amenity"); ("value", VStr "restaurant")] ].

Definition food_categories : list value :=
  [ VArr [VStr "amenity"; VStr "cafe"];
    VArr [VStr "amenity"; VStr "restaurant"];
    VArr [VStr "shop"; VStr "deli"];
    VArr [VStr "amenity"; VStr "ice_cream"];
    VArr [VStr "amenity"; VStr "fast_food"] ].

Definition getFoodShops (bounds : value) : outcome (list value) :=
  northEast <- get_prop bounds "_northEast" ;;
  southWest <- get_prop bounds "_southWest" ;;
  s <- get_prop southWest "lat" ;;
  w <- get_prop southWest "lng" ;;
  n <- get_prop northEast "lat" ;;
  e <- get_prop northEast "lng" ;;
  openstreetmapGetPOIs (VStr (join "," [s; w; n; e])) food_categories.

(** *** wikipediaQuery *)

Definition wikipedia_api (lat lon language radius limit : value) : string :=
  let b := "https://" ++ to_string language ++ ".wikipedia.org/w/api.php" in
  b ++ "?action=query&list=geosearch&gscoord=" ++ to_string lat ++ "%7C"
    ++ to_string lon ++ "&gsradius=" ++ to_string radius ++ "&gslimit="
    ++ to_string limit ++ "&origin=*&format=json".

Definition add_url (language a : value) : outcome value :=
  title <- get_prop a "title" ;;
  set_prop a "url"
    (VStr ("https://" ++ to_string language ++ ".wikipedia.org/wiki/"
                      ++ to_string title)).

Definition wikipediaQuery (lat lon language radius limit : value)
  : outcome (list value) :=
  let lat := default lat (VNum 37) in
  let lon := default lon (VNum (-122)) in
  let language := default language (VStr "en") in
  let radius := default radius (VNum 10000) in
  let limit := default limit (VNum 100) in
  d <- fetch (GET (wikipedia_api lat lon language radius limit)) ;;
  q <- get_prop d "query" ;;
  g <- get_prop q "geosearch" ;;
  match g with
  | VArr items => mapM (add_url language) items
  | _ => Throw TypeError
  end.

(** *** wikimediaQuery *)

Definition commons_api : string := "https://commons.wikimedia.org/w/api.php".

Definition wikimedia_api (n w s e limit : value) : string :=
  commons_api ++ "?action=query&list=geosearch&gsbbox=" ++ to_string n
    ++ "%7C" ++ to_string w ++ "%7C" ++ to_string s ++ "%7C" ++ to_string e
    ++ "&gsnamespace=6&gslimit=" ++ to_string limit ++ "&format=json&origin=*".

Definition wikimediaQuery (northEast southWest limit : value) : outcome value :=
  let limit := default limit (VNum 100) in
  n <- get_prop northEast "lat" ;;
  w <- get_prop southWest "lng" ;;
  s <- get_prop southWest "lat" ;;
  e <- get_prop northEast "lng" ;;
  d <- fetch (GET (wikimedia_api n w s e limit)) ;;
  err <- get_prop d "error" ;;
  if truthy err then Throw (Rejected err)
  else
    query <- get_prop d "query" ;;
    g <- get_prop query "geosearch" ;;
    Ok (if truthy g then g else VArr []).

(** *** wikimediaInfoMultiplePages, wikimediaInfo *)

Definition wikimediaInfoMultiplePages (pageids : list value) (thumbWidth : value)
  : outcome value :=
  let thumbWidth := default thumbWidth (VNum 600) in
  let pageidsStr := join "|" pageids in
  let q := commons_api ++ "?action=query&pageids=" ++ pageidsStr
             ++ "&prop=imageinfo&iiprop=extmetadata|url&format=json&origin=*&iiurlwidth="
             ++ to_string thumbWidth in
  d <- fetch (GET q) ;;
  query <- get_prop d "query" ;;
  get_prop query "pages".

(** [info.extmetadata.Field.value]. *)
Definition extmetadata_value (info : value) (field : string) : outcome value :=
  ext <- get_prop info "extmetadata" ;;
  f <- get_prop ext field ;;
  get_prop f "value".

Definition wikimediaInfo (pageid thumbWidth : value) : outcome value :=
  let thumbWidth := default thumbWidth (VNum 600) in
  infos <- wikimediaInfoMultiplePages [pageid] thumbWidth ;;
  page <- get_prop infos (to_string pageid) ;;
  imageinfo <- get_prop page "imageinfo" ;;
  info <- get_prop imageinfo "0" ;;
  name <- extmetadata_value info "ObjectName" ;;
  date <- extmetadata_value info "DateTime" ;;
  categories <- extmetadata_value info "Categories" ;;
  description <- extmetadata_value info "ImageDescription" ;;
  artistHtml <- extmetadata_value info "Artist" ;;
  Ok (VObj (obj_assign
              [("name", name); ("date", date); ("categories", categories);
               ("description", description); ("artistHtml", artistHtml)]
              (own_props info))).
End Client.

(** *** extractDiets *)

(** [poi[key] === `yes`]. *)
Definition is_yes (v : value) : bool :=
  match v with
  | VStr s => String.eqb s "yes"
  | _ => false
  end.

(** [poi.cuisine?.split(`;`)?.forEach(c => diets.add(c?.trim()?.toLowerCase()))]:
    skipped when [cuisine] is undefined or null, a [TypeError] when it is
    anything else without a [split] method. *)
Definition add_cuisine (diets : list label) (cuisine : value) : outcome (list label) :=
  match cuisine with
  | VUndef | VNull => Ok diets
  | VStr s =>
      Ok (fold_left (fun ds c => set_add ds (Some (toLowerCase (trim c))))
                    (split_on ";" s) diets)
  | _ => Throw TypeError
  end.

(** [Object.keys(poi).filter(key => key.startsWith(`diet`) && poi[key] === `yes`)]. *)
Definition diet_keys (poi : value) : list string :=
  filter (fun key => startsWith key "diet" && is_yes (obj_get (own_props poi) key))
         (obj_keys (own_props poi)).

(** [key.split(`:`).at(1)]. *)
Definition diet_of_key (key : string) : label := nth_error (split_on ":" key) 1.

(** The [Set] built for one POI, in insertion order. *)
Definition poi_diets (poi : value) : outcome (list label) :=
  cuisine <- get_prop poi "cuisine" ;;
  diets <- add_cuisine [] cuisine ;;
  Ok (fold_left (fun ds key => set_add ds (diet_of_key key)) (diet_keys poi) diets).

(** The body of [diets.forEach]. *)
Definition count_diet (m : dietsMap) (diet : label) : dietsMap :=
  if map_has m diet then map_set m diet (map_get m diet + 1)
  else map_set m diet 1.

(** [pois.forEach(poi => ...)] threading [dietsMap]. *)
Fixpoint count_pois (pois : list value) (m : dietsMap) : outcome dietsMap :=
  match pois with
  | [] => Ok m
  | poi :: r =>
      diets <- poi_diets poi ;;
      count_pois r (fold_left count_diet diets m)
  end.

(** The comparator [(a, b) => b[1] - a[1]]. *)
Definition by_count_desc (a b : label * nat) : Z := Z.of_nat (snd b) - Z.of_nat (snd a).

Definition extractDiets (pois : list value) : outcome (list (label * nat)) :=
  m <- count_pois pois [] ;;
  Ok (sort by_count_desc m).

(** *** wikidataQuery *)

(** The characters [encodeURI] leaves alone: letters, digits, the reserved
    characters and [#], and the unreserved marks. *)
Definition uri_unescaped (c : ascii) : bool :=
  let n := nat_of_ascii c in
  (Nat.leb 65 n && Nat.leb n 90) || (Nat.leb 97 n && Nat.leb n 122)
  || (Nat.leb 48 n && Nat.leb n 57)
  || existsb (Ascii.eqb c) (list_ascii_of_string ";/?:@&=+$,#-_.!~*'()").

Definition hex_digit (n : nat) : ascii :=
  nth n (list_ascii_of_string "0123456789ABCDEF") "0"%char.

(** [%XX] for one octet. *)
Definition percent_encode (c : ascii) : string :=
  let n := nat_of_ascii c in
  String "%" (String (hex_digit (n / 16)) (String (hex_digit (n mod 16)) EmptyString)).

(** [encodeURI(s)]: every other octet of the text (in UTF-8) is escaped. *)
Fixpoint encodeURI (s : string) : string :=
  match s with
  | EmptyString => EmptyString
  | String c r =>
      if uri_unescaped c then String c (encodeURI r)
      else percent_encode c ++ encodeURI r
  end.

Definition wikidata_endpoint : string :=
  "https://query.wikidata.org/bigdata/namespace/wdq/sparql?format=json&query=".

(** The template literal [q]. *)
Definition sparql_box_query (swLng swLat neLng neLat limit : value) : string :=
  "SELECT ?q ?qLabel ?location ?image ?reason ?desc ?commonscat WHERE {" ++
  nl ++ spaces 18 ++ "SERVICE wikibase:box {" ++
  nl ++ spaces 20 ++ "?q wdt:P625 ?location." ++
  nl ++ spaces 20 ++ "bd:serviceParam wikibase:cornerSouthWest " ++ dquote ++ "Point("
     ++ to_string swLng ++ " " ++ to_string swLat ++ ")" ++ dquote ++ "^^geo:wktLiteral;" ++
  nl ++ spaces 22 ++ "wikibase:cornerNorthEast " ++ dquote ++ "Point("
     ++ to_string neLng ++ " " ++ to_string neLat ++ ")" ++ dquote ++ "^^geo:wktLiteral." ++
  nl ++ spaces 18 ++ "}" ++
  nl ++ spaces 18 ++ "OPTIONAL { ?q wdt:P18 ?image. } " ++
  nl ++ spaces 18 ++ "OPTIONAL { ?q wdt:P373 ?commonscat. }" ++
  nl ++ spaces 18 ++ "SERVICE wikibase:label {" ++
  nl ++ spaces 20 ++ "bd:serviceParam wikibase:language " ++ dquote ++ "[AUTO_LANGUAGE]"
     ++ dquote ++ "." ++
  nl ++ spaces 20 ++ "?q schema:description ?desc;" ++
  nl ++ spaces 22 ++ "rdfs:label ?qLabel." ++
  nl ++ spaces 18 ++ "}" ++
  nl ++ spaces 12 ++ "}" ++
  nl ++ spaces 12 ++ "LIMIT " ++ to_string limit.

Definition wikidataQuery (fetch : request -> outcome value)
  (northEast southWest limit : value) : outcome value :=
  let limit := default limit (VNum 3000) in
  swLng <- get_prop southWest "lng" ;;
  swLat <- get_prop southWest "lat" ;;
  neLng <- get_prop northEast "lng" ;;
  neLat <- get_prop northEast "lat" ;;
  let q := sparql_box_query swLng swLat neLng neLat limit in
  d <- fetch (GET (wikidata_endpoint ++ encodeURI q)) ;;
  results <- get_prop d "results" ;;
  bindings <- get_prop results "bindings" ;;
  Ok (if truthy bindings then bindings else VArr []).

(** ** Vocabulary of the properties *)

(** The number of tags an Overpass element carries. *)
Definition tag_count (p : value) : nat :=
  match p with
  | VObj o => List.length (own_props (obj_get o "tags"))
  | _ => 0
  end.

(** The type segment of the two OpenStreetMap links of a record. *)
Definition url_type (o : object) : string :=
  if truthy (obj_get o "members") then "relation" else to_string (obj_get o "type").

(** The elements the [filter] callback keeps. *)
Definition tags_truthy (p : value) : bool := verdict has_tags p.

(** A decoded JSON object never has two properties of one name. *)
Definition distinct_keys (o : object) : Prop := NoDup (obj_keys o).

(** How a returned record [r] stands to the raw element [p] as regards
    [members] and [type]: truthy [members] put [relation] in both links; raw
    [members] survive the merge unless a tag is named [members]; the [type]
    field is the [type] tag if there is one, the raw [type] otherwise. *)
Definition relation_links (p r : value) : Prop :=
  exists o res,
    p = VObj o /\ r = VObj res /\
    let t := own_props (obj_get o "tags") in
    (truthy (obj_get res "members") = true ->
     obj_get res "osm_url"
       = VStr (osm_site ++ "relation/" ++ to_string (obj_get res "id")) /\
     obj_get res "osm_url_edit"
       = VStr (osm_site ++ "edit?relation=" ++ to_string (obj_get res "id"))) /\
    (distinct_keys o -> distinct_keys t ->
     truthy (obj_get o "members") = true -> obj_has t "members" = false ->
     truthy (obj_get res "members") = true) /\
    (distinct_keys o -> distinct_keys t ->
     obj_get res "type"
       = if obj_has t "type" then obj_get t "type" else obj_get o "type").

(** How a returned record [r] stands to the raw element [p] as regards the
    flattening: no [tags] property is left; every tag is a property of the
    record, but for tags named [tags], [osm_url] or [osm_url_edit] and for
    a falsy [website] tag; the two links are built from the record's own
    [id] and its [url_type]. *)
Definition flattened (p r : value) : Prop :=
  exists o res,
    p = VObj o /\ r = VObj res /\
    let t := own_props (obj_get o "tags") in
    obj_has res "tags" = false /\
    (distinct_keys o -> distinct_keys t ->
     forall k, obj_has t k = true ->
               k <> "tags" -> k <> "website" -> k <> "osm_url" -> k <> "osm_url_edit" ->
               obj_get res k = obj_get t k) /\
    (distinct_keys o -> distinct_keys t ->
     truthy (obj_get t "website") = true ->
     obj_get res "website" = obj_get t "website") /\
    obj_get res "osm_url"
      = VStr (osm_site ++ url_type res ++ "/" ++ to_string (obj_get res "id")) /\
    obj_get res "osm_url_edit"
      = VStr (osm_site ++ "edit?" ++ url_type res ++ "=" ++ to_string (obj_get res "id")).

(** The article link of a record, from the record's own [title]. *)
Definition article_url (language : value) (o : object) : string :=
  "https://" ++ to_string language ++ ".wikipedia.org/wiki/"
             ++ to_string (obj_get o "title").

Definition has_article_url (language : value) (a : value) : Prop :=
  exists o, a = VObj o /\ obj_get o "url" = VStr (article_url language o).

(** *** Diet labels, in the words of the description *)

(** The text of [s] up to its first colon. *)
Fixpoint until_colon (s : string) : string :=
  match s with
  | EmptyString => EmptyString
  | String c r => if Ascii.eqb c ":" then EmptyString else String c (until_colon r)
  end.

(** The segment of a key after its first colon (up to the next one), if the
    key has a colon at all. *)
Fixpoint after_first_colon (key : string) : label :=
  match key with
  | EmptyString => None
  | String c r => if Ascii.eqb c ":" then Some (until_colon r) else after_first_colon r
  end.

Fixpoint has_colon (key : string) : bool :=
  match key with
  | EmptyString => false
  | String c r => Ascii.eqb c ":" || has_colon r
  end.

(** (a) the trimmed, lower-cased tokens of the semicolon-split [cuisine]. *)
Definition cuisine_labels (poi : value) : list label :=
  match get_prop poi "cuisine" with
  | Ok (VStr s) => map (fun c => Some (toLowerCase (trim c))) (split_on ";" s)
  | _ => []
  end.

(** (b) for every key starting with [diet] whose value is exactly [yes],
    the segment after the first colon. *)
Definition flag_labels (poi : value) : list label :=
  map after_first_colon
      (filter (fun key => startsWith key "diet" && is_yes (obj_get (own_props poi) key))
              (obj_keys (own_props poi))).

(** The labels of one POI, in the order the scan meets them. *)
Definition poi_labels (poi : value) : list label :=
  (cuisine_labels poi ++ flag_labels poi)%list.

(** The labels met while scanning the POI list in order. *)
Definition seen (pois : list value) : list label := List.concat (map poi_labels pois).

(** The number of POIs that have label [d]. *)
Definition pois_with (d : label) (pois : list value) : nat :=
  List.length (filter (fun poi => set_has (poi_labels poi) d) pois).

(** The distinct elements of a list, in order of first occurrence. *)
Fixpoint first_seen (l : list label) : list label :=
  match l with
  | [] => []
  | x :: r => x :: filter (fun y => negb (label_eqb x y)) (first_seen r)
  end.




(** What [extractDiets] can take without throwing: every POI is an object
    or a primitive other than [undefined] and [null], and its [cuisine], if
    any, is a string. *)
Definition cuisine_ok (poi : value) : bool :=
  match get_prop poi "cuisine" with
  | Ok (VUndef | VNull | VStr _) => true
  | _ => false
  end.

(** ** Sample payloads *)

(** A transport that answers every request with the same decoded body. *)
Definition reply (body : value) : request -> outcome value := fun _ => Ok body.

Definition overpass_reply (els : list value) : request -> outcome value :=
  reply (VObj [("elements", VArr els)]).

Definition cafe_category : list value := [VArr [VStr "amenity"; VStr "cafe"]].

Definition outer_member : value :=
  VObj [("type", VStr "way"); ("ref", VNum 41); ("role", VStr "outer")].

(** A relation as Overpass reports it, with the usual [type] tag. *)
Definition multipolygon_relation : value :=
  VObj [("type", VStr "relation"); ("id", VNum 7); ("members", VArr [outer_member]);
        ("tags", VObj [("type", VStr "multipolygon"); ("name", VStr "Lake")])].

(** An element with [members] and no [type] of its own. *)
Definition untyped_relation : value :=
  VObj [("id", VNum 8); ("members", VArr [outer_member]);
        ("tags", VObj [("name", VStr "Route 5")])].

Definition tagged_node : value :=
  VObj [("type", VStr "node"); ("id", VNum 9); ("lat", VNum 37); ("lon", VNum (-122));
        ("tags", VObj [("amenity", VStr "cafe"); ("contact:website", VStr "https://cafe.example")])].

Definition bare_node : value :=
  VObj [("type", VStr "node"); ("id", VNum 10); ("lat", VNum 37); ("lon", VNum (-122))].

Definition empty_tags_node : value :=
  VObj [("type", VStr "node"); ("id", VNum 11); ("tags", VObj [])].

Definition site_node : value :=
  VObj [("type", VStr "node"); ("id", VNum 12); ("tags", VObj [("type", VStr "site")])].

Definition north_east : value := VObj [("lat", VNum 38); ("lng", VNum (-122))].
Definition south_west : value := VObj [("lat", VNum 37); ("lng", VNum (-123))].

Definition commons_hit : value :=
  VObj [("pageid", VNum 12); ("ns", VNum 6); ("title", VStr "File:Bridge.jpg")].

Definition commons_error : value :=
  VObj [("code", VStr "toomanyvalues"); ("info", VStr "Too many values supplied")].

Definition pages_reply : value :=
  VObj [("query", VObj [("pages", VObj [("12", VObj [("pageid", VNum 12)])])])].

Definition article : value :=
  VObj [("pageid", VNum 5); ("title", VStr "Oakland"); ("dist", VNum 3)].

Definition geosearch_reply (hits : value) : value :=
  VObj [("batchcomplete", VStr EmptyString); ("query", VObj [("geosearch", hits)])].

(** The three POIs of the worked example. *)
Definition example_pois : list value :=
  [ VObj [("cuisine", VStr "Thai; thai")];
    VObj [("cuisine", VStr "italian")];
    VObj [("diet:vegan", VStr "yes")] ].

(** A restaurant flagged with a bare [diet] key. *)
Definition bare_diet_poi : object :=
  [("amenity", VStr "restaurant"); ("cuisine", VStr "pizza"); ("diet", VStr "yes")].

(** ** Vocabulary of the further properties *)

Fixpoint string_forall (P : ascii -> bool) (s : string) : bool :=
  match s with
  | EmptyString => true
  | String c r => P c && string_forall P r
  end.

(** What may stand in an encoded URI: an unescaped character or the [%] of
    an escape. *)
Definition uri_safe (c : ascii) : bool := uri_unescaped c || Ascii.eqb c "%".

(** What the parameter pattern [[key, value]] can iterate. *)
Definition iterable (c : value) : bool :=
  match c with
  | VArr _ | VStr _ => true
  | _ => false
  end.

Definition nullish (v : value) : bool :=
  match v with
  | VUndef | VNull => true
  | _ => false
  end.

(** What [openstreetmapGetPOIs] does with the decoded body. *)
Definition read_elements (data : value) : outcome (list value) :=
  elements <- get_prop data "elements" ;;
  match elements with
  | VArr els => kept <- filterM has_tags els ;; mapM normalize_poi kept
  | _ => Throw TypeError
  end.

(** The filters of one category given as an array. *)
Definition clause_of (bbox : value) (items : list value) : string :=
  category_clause bbox (nth 0 items VUndef) (nth 1 items VUndef).

(** A returned record [r] keeps the fields of the raw element [p] that no
    tag shadows (the [tags] container and the three computed fields
    apart). *)
Definition keeps_element_fields (p r : value) : Prop :=
  exists o res,
    p = VObj o /\ r = VObj res /\
    (distinct_keys o -> distinct_keys (own_props (obj_get o "tags")) ->
     forall k, obj_has (own_props (obj_get o "tags")) k = false ->
               k <> "tags" -> k <> "website" -> k <> "osm_url" -> k <> "osm_url_edit" ->
               obj_get res k = obj_get o k).

(** A record with a [contact:website] has a [website]. *)
Definition website_filled (r : value) : Prop :=
  exists o, r = VObj o /\
            (truthy (obj_get o "contact:website") = true ->
             truthy (obj_get o "website") = true).

Definition is_object (v : value) : bool :=
  match v with
  | VObj _ => true
  | _ => false
  end.

Definition is_array (v : value) : bool :=
  match v with
  | VArr _ => true
  | _ => false
  end.

(** A record is its hit with [url] set and every other field as it was. *)
Definition hit_with_url (language : value) (hit record : object) : Prop :=
  obj_get record "url" = VStr (article_url language hit) /\
  obj_keys record = obj_keys (obj_set hit "url" VUndef) /\
  forall k, k <> "url" -> obj_get record k = obj_get hit k.

(** The URL of the image-info request. *)
Definition imageinfo_url (pageids : list value) (thumbWidth : value) : string :=
  commons_api ++ "?action=query&pageids=" ++ join "|" pageids
    ++ "&prop=imageinfo&iiprop=extmetadata|url&format=json&origin=*&iiurlwidth="
    ++ to_string thumbWidth.

Definition sample_metadata : value :=
  VObj [("ObjectName", VObj [("value", VStr "Bridge")]);
        ("DateTime", VObj [("value", VStr "2020-01-01")]);
        ("Categories", VObj [("value", VStr "Bridges")]);
        ("ImageDescription", VObj [("value", VStr "A bridge")]);
        ("Artist", VObj [("value", VStr "<a>Ann</a>")])].

Definition sample_info : object :=
  [("url", VStr "https://upload.example/Bridge.jpg"); ("extmetadata", sample_metadata)].

Definition sample_pages (info : object) : value :=
  VObj [("query", VObj [("pages", VObj [("12", VObj [("pageid", VNum 12);
                                                      ("imageinfo", VArr [VObj info])])])])].


Definition sum_counts (out : list (label * nat)) : nat :=
  list_sum (map snd out).

(** The five metadata fields [wikimediaInfo] reads. *)
Definition metadata_fields : list string :=
  ["ObjectName"; "DateTime"; "Categories"; "ImageDescription"; "Artist"].

Definition sample_bounds : value :=
  VObj [("_southWest", VObj [("lat", VNum 37); ("lng", VNum (-123))]);
        ("_northEast", VObj [("lat", VNum 38); ("lng", VNum (-122))])].

Definition sample_bindings : value :=
  VArr [VObj [("q", VObj [("type", VStr "uri"); ("value", VStr "Q62")])]].

(** * Properties *)

(** ** The error monad *)

Lemma bind_Ok_inv {A B} (m : outcome A) (k : A -> outcome B) (b : B) :
  bind m k = Ok b -> exists a, m = Ok a /\ k a = Ok b.
Proof.
  destruct m as [a|e]; simpl; intros H; [exists a; auto | discriminate].
Qed.

Ltac inv_bind H :=
  let a := fresh "x" in
  let Ha := fresh "E" in
  apply bind_Ok_inv in H; destruct H as (a & Ha & H).

Lemma mapM_Forall2 {A B} (f : A -> outcome B) (l : list A) (out : list B) :
  mapM f l = Ok out <-> Forall2 (fun a b => f a = Ok b) l out.
Proof.
  revert out; induction l as [|a l IH]; intros out; simpl.
  - split; intros H.
    + injection H as <-. constructor.
    + inversion H. reflexivity.
  - split; intros H.
    + inv_bind H. inv_bind H. injection H as <-.
      constructor; [assumption | apply IH; assumption].
    + inversion H as [|? b ? bs Hb Hbs]; subst.
      rewrite Hb; simpl. apply IH in Hbs. rewrite Hbs. reflexivity.
Qed.

Lemma filterM_filter {A} (f : A -> outcome bool) (g : A -> bool) (l : list A) :
  Forall (fun a => f a = Ok (g a)) l -> filterM f l = Ok (filter g l).
Proof.
  induction 1 as [|a l Ha _ IH]; simpl; [reflexivity|].
  rewrite Ha, IH; simpl. reflexivity.
Qed.

Lemma filterM_Ok_inv {A} (f : A -> outcome bool) (l kept : list A) :
  filterM f l = Ok kept ->
  Forall (fun a => f a = Ok (verdict f a)) l /\ kept = filter (verdict f) l.
Proof.
  revert kept; induction l as [|a l IH]; intros kept H; simpl in H.
  - injection H as <-. split; [constructor | reflexivity].
  - inv_bind H. inv_bind H. injection H as <-.
    destruct (IH _ E0) as (Hl & ->).
    assert (Ha : verdict f a = x) by (unfold verdict; rewrite E; reflexivity).
    split.
    + constructor; [rewrite Ha; assumption | assumption].
    + simpl. rewrite Ha. reflexivity.
Qed.

(** ** Strings *)

Lemma string_app_assoc (a b c : string) : (a ++ b) ++ c = a ++ (b ++ c).
Proof.
  induction a as [|x a IH]; simpl; [reflexivity | rewrite IH; reflexivity].
Qed.

Lemma to_string_array (items : list value) : to_string (VArr items) = join "," items.
Proof.
  cbn [to_string]. induction items as [|x r IH]; [reflexivity|].
  cbn [join]. destruct r as [|y r]; [reflexivity|]. rewrite <- IH. reflexivity.
Qed.

Example trim_lower_token :
  map (fun c => toLowerCase (trim c)) (split_on ";" "Thai; thai ;;VEGAN")
  = ["thai"; "thai"; EmptyString; "vegan"].
Proof. reflexivity. Qed.

Example split_keeps_empty_string : split_on ";" EmptyString = [EmptyString].
Proof. reflexivity. Qed.

Example to_string_samples :
  to_string (VNum (-122)) = "-122" /\
  to_string (VArr [VNum 1; VNull; VArr [VStr "a"; VStr "b"]; VUndef]) = "1,,a,b," /\
  to_string (VObj [("a", VNum 1)]) = "[object Object]".
Proof. repeat split; reflexivity. Qed.

(** ** Objects *)

(** Decide [String.eqb] on two literals. *)
Ltac str_eqb :=
  repeat match goal with
         | |- context [String.eqb ?a ?b] =>
             let r := eval vm_compute in (String.eqb a b) in
             match r with
             | true => change (String.eqb a b) with true
             | false => change (String.eqb a b) with false
             end
         end;
  cbn [orb andb negb].

Lemma obj_get_set (o : object) (k k' : string) (v : value) :
  obj_get (obj_set o k v) k' = if String.eqb k k' then v else obj_get o k'.
Proof.
  induction o as [|[k0 v0] o IH]; simpl.
  - reflexivity.
  - destruct (String.eqb k0 k) eqn:E0; simpl.
    + apply String.eqb_eq in E0; subst k0.
      destruct (String.eqb k k'); reflexivity.
    + rewrite IH. destruct (String.eqb k0 k') eqn:E1; [|reflexivity].
      apply String.eqb_eq in E1; subst k0.
      rewrite String.eqb_sym, E0. reflexivity.
Qed.

Lemma obj_has_set (o : object) (k k' : string) (v : value) :
  obj_has (obj_set o k v) k' = String.eqb k k' || obj_has o k'.
Proof.
  induction o as [|[k0 v0] o IH]; simpl.
  - rewrite orb_false_r. reflexivity.
  - destruct (String.eqb k0 k) eqn:E0; simpl.
    + apply String.eqb_eq in E0; subst k0.
      destruct (String.eqb k k'); reflexivity.
    + rewrite IH. destruct (String.eqb k0 k'), (String.eqb k k'); reflexivity.
Qed.

Lemma obj_has_delete (o : object) (k k' : string) :
  obj_has (obj_delete o k) k' = negb (String.eqb k k') && obj_has o k'.
Proof.
  unfold obj_delete.
  induction o as [|[k0 v0] o IH]; simpl.
  - rewrite andb_false_r. reflexivity.
  - destruct (String.eqb k0 k) eqn:E0; simpl.
    + apply String.eqb_eq in E0; subst k0. rewrite IH.
      destruct (String.eqb k k'); reflexivity.
    + rewrite IH. destruct (String.eqb k0 k') eqn:E1; simpl; [|reflexivity].
      apply String.eqb_eq in E1; subst k0.
      rewrite String.eqb_sym, E0. reflexivity.
Qed.

Lemma obj_get_delete (o : object) (k k' : string) :
  obj_get (obj_delete o k) k' = if String.eqb k k' then VUndef else obj_get o k'.
Proof.
  unfold obj_delete.
  induction o as [|[k0 v0] o IH]; simpl.
  - destruct (String.eqb k k'); reflexivity.
  - destruct (String.eqb k0 k) eqn:E0; simpl.
    + apply String.eqb_eq in E0; subst k0. rewrite IH.
      destruct (String.eqb k k'); reflexivity.
    + rewrite IH. destruct (String.eqb k0 k') eqn:E1; [|reflexivity].
      apply String.eqb_eq in E1; subst k0.
      rewrite String.eqb_sym, E0. reflexivity.
Qed.

Lemma obj_get_absent (o : object) (k : string) :
  obj_has o k = false -> obj_get o k = VUndef.
Proof.
  induction o as [|[k0 v0] o IH]; simpl; [reflexivity|].
  destruct (String.eqb k0 k); simpl; [discriminate | exact IH].
Qed.

Lemma obj_has_In (o : object) (k : string) :
  obj_has o k = true <-> In k (obj_keys o).
Proof.
  induction o as [|[k0 v0] o IH]; simpl.
  - split; [discriminate | tauto].
  - rewrite orb_true_iff, IH, String.eqb_eq. tauto.
Qed.

(** Spreading [source] over [target]: the last binding of a key in
    [source] wins, a key [source] lacks keeps its [target] value. *)
Lemma obj_get_assign (target source : object) (k : string) :
  obj_get (obj_assign target source) k =
  if obj_has source k then obj_get (rev source) k else obj_get target k.
Proof.
  unfold obj_assign. revert target.
  induction source as [|[k0 v0] s IH] using rev_ind; intros target.
  - reflexivity.
  - rewrite fold_left_app, rev_app_distr. simpl.
    rewrite obj_get_set.
    assert (Hh : obj_has (s ++ [(k0, v0)])%list k = String.eqb k0 k || obj_has s k).
    { clear. induction s as [|[k1 v1] s IHs]; simpl.
      - rewrite orb_false_r. reflexivity.
      - rewrite IHs. destruct (String.eqb k1 k), (String.eqb k0 k); reflexivity. }
    rewrite Hh. destruct (String.eqb k0 k); simpl; [reflexivity | apply IH].
Qed.

Lemma obj_get_rev (o : object) (k : string) :
  distinct_keys o -> obj_get (rev o) k = obj_get o k.
Proof.
  unfold distinct_keys, obj_keys.
  induction o as [|[k0 v0] o IH]; simpl; intros Hnd; [reflexivity|].
  inversion Hnd as [|? ? Hnot Hrest]; subst.
  assert (Happ : forall a b, obj_get (a ++ b)%list k =
                             if obj_has a k then obj_get a k else obj_get b k).
  { clear. induction a as [|[k1 v1] a IHa]; intros b; simpl; [reflexivity|].
    destruct (String.eqb k1 k); simpl; [reflexivity | apply IHa]. }
  rewrite Happ. simpl.
  destruct (String.eqb k0 k) eqn:E0.
  - apply String.eqb_eq in E0; subst k0.
    destruct (obj_has (rev o) k) eqn:Eh; [|reflexivity].
    exfalso. apply Hnot. apply obj_has_In in Eh.
    unfold obj_keys in Eh. rewrite map_rev in Eh. apply in_rev in Eh. exact Eh.
  - rewrite IH by assumption.
    destruct (obj_has (rev o) k) eqn:Eh; [reflexivity|].
    symmetry. apply obj_get_absent.
    destruct (obj_has o k) eqn:Eh'; [|reflexivity].
    apply obj_has_In in Eh'. apply not_true_iff_false in Eh. exfalso. apply Eh.
    apply obj_has_In. unfold obj_keys in *. rewrite map_rev. apply in_rev.
    rewrite rev_involutive. exact Eh'.
Qed.

Lemma obj_assign_nil_get (o : object) (k : string) :
  distinct_keys o -> obj_get (obj_assign [] o) k = obj_get o k.
Proof.
  intros Hnd. rewrite obj_get_assign, obj_get_rev by assumption.
  destruct (obj_has o k) eqn:E; [reflexivity|].
  simpl. symmetry. apply obj_get_absent. exact E.
Qed.

(** ** openstreetmapGetPOIs *)

(** Only an object can pass the [filter] callback: arrays, strings, numbers
    and booleans have no [tags], [undefined] and [null] make it throw. *)
Lemma has_tags_true_inv (p : value) :
  has_tags p = Ok true -> exists o, p = VObj o /\ truthy (obj_get o "tags") = true.
Proof.
  unfold has_tags.
  destruct p as [| |b|z|s|items|o]; simpl; try discriminate.
  - exists o. split; [reflexivity|]. injection H as H. exact H.
Qed.

Lemma has_tags_total (p : value) :
  p <> VUndef -> p <> VNull -> has_tags p = Ok (verdict has_tags p).
Proof.
  intros Hu Hn. unfold verdict, has_tags.
  destruct p as [| |b|z|s|items|o]; try congruence; reflexivity.
Qed.

(** What the [map] callback returns for an object [o]; [m] is the record
    right after [delete p.tags]. *)
Lemma normalize_poi_obj (o : object) :
  let m := obj_delete (obj_assign (obj_assign [] o) (own_props (obj_get o "tags")))
                      "tags" in
  exists res,
    normalize_poi (VObj o) = Ok (VObj res) /\
    obj_has res "tags" = false /\
    (forall k, k <> "website" -> k <> "osm_url" -> k <> "osm_url_edit" ->
               obj_get res k = obj_get m k) /\
    obj_get res "osm_url"
      = VStr (osm_site ++ url_type res ++ "/" ++ to_string (obj_get res "id")) /\
    obj_get res "osm_url_edit"
      = VStr (osm_site ++ "edit?" ++ url_type res ++ "=" ++ to_string (obj_get res "id")).
Proof.
  intros m. unfold normalize_poi. cbn [get_prop bind]. cbv zeta.
  change (own_props (VObj o)) with o. fold m.
  eexists. split; [reflexivity|].
  match goal with |- obj_has ?r _ = _ /\ _ => set (res := r) end.
  assert (Hkeep : forall k, k <> "website" -> k <> "osm_url" -> k <> "osm_url_edit" ->
                            obj_get res k = obj_get m k).
  { intros k H1 H2 H3. subst res. rewrite !obj_get_set.
    apply String.eqb_neq in H1, H2, H3.
    rewrite (String.eqb_sym _ k), H3, (String.eqb_sym _ k), H2.
    destruct (negb _ && _); [|reflexivity].
    rewrite obj_get_set, (String.eqb_sym _ k), H1. reflexivity. }
  split; [|split; [exact Hkeep|]].
  - subst res. rewrite !obj_has_set. str_eqb.
    destruct (negb _ && _).
    + rewrite obj_has_set. str_eqb. unfold m. rewrite obj_has_delete. reflexivity.
    + unfold m. rewrite obj_has_delete. reflexivity.
  - unfold url_type.
    rewrite (Hkeep "members"), (Hkeep "type"), (Hkeep "id") by discriminate.
    subst res. rewrite !obj_get_set. str_eqb.
    assert (Hid : forall c : bool,
               obj_get (if c then obj_set m "website" (obj_get m "contact:website") else m)
                       "id" = obj_get m "id").
    { intros [|]; [|reflexivity]. rewrite obj_get_set. reflexivity. }
    rewrite Hid.
    destruct (truthy (obj_get m "members")); split; reflexivity.
Qed.

(** The [website] of the returned record: [contact:website] when the merged
    record has no truthy [website] and a truthy [contact:website]. *)
Lemma normalize_poi_website (o : object) :
  let m := obj_delete (obj_assign (obj_assign [] o) (own_props (obj_get o "tags")))
                      "tags" in
  exists res,
    normalize_poi (VObj o) = Ok (VObj res) /\
    obj_get res "website"
    = if negb (truthy (obj_get m "website")) && truthy (obj_get m "contact:website")
      then obj_get m "contact:website" else obj_get m "website".
Proof.
  intros m. unfold normalize_poi. cbn [get_prop bind]. cbv zeta.
  change (own_props (VObj o)) with o. fold m.
  eexists. split; [reflexivity|].
  rewrite !obj_get_set. str_eqb.
  destruct (negb _ && _); [|reflexivity].
  rewrite obj_get_set. reflexivity.
Qed.

Lemma mapM_total {A B} (f : A -> outcome B) (l : list A) :
  Forall (fun a => exists b, f a = Ok b) l -> exists out, mapM f l = Ok out.
Proof.
  induction 1 as [|a l [b Hb] _ [out IH]]; simpl.
  - exists []. reflexivity.
  - exists (b :: out). rewrite Hb; simpl. rewrite IH. reflexivity.
Qed.

Lemma tags_truthy_inv (p : value) :
  tags_truthy p = true -> exists o, p = VObj o /\ truthy (obj_get o "tags") = true.
Proof.
  intros H. apply has_tags_true_inv.
  unfold tags_truthy, verdict in H.
  destruct (has_tags p) as [b|e]; [subst b; reflexivity | discriminate].
Qed.

(** A successful call: the request went out, the body had an [elements]
    array, and the result lists the normalised kept elements in order. *)
Lemma openstreetmapGetPOIs_inv fetch bbox categories pois :
  openstreetmapGetPOIs fetch bbox categories = Ok pois ->
  exists quest data els,
    build_quest bbox categories EmptyString = Ok quest /\
    fetch (POST overpass_url (overpass_body quest)) = Ok data /\
    get_prop data "elements" = Ok (VArr els) /\
    Forall2 (fun p r => normalize_poi p = Ok r) (filter tags_truthy els) pois.
Proof.
  unfold openstreetmapGetPOIs. intros H.
  inv_bind H. inv_bind H. inv_bind H.
  destruct x1 as [| |b|z|s|els|o]; try discriminate.
  inv_bind H. apply filterM_Ok_inv in E2. destruct E2 as [_ ->].
  exists x, x0, els. repeat split; try assumption.
  apply mapM_Forall2. exact H.
Qed.

(** The call returns whenever the request can be built, the transport
    answers, and the body has an [elements] array without holes of
    [null]. *)
Lemma openstreetmapGetPOIs_run fetch bbox categories quest data els :
  build_quest bbox categories EmptyString = Ok quest ->
  fetch (POST overpass_url (overpass_body quest)) = Ok data ->
  get_prop data "elements" = Ok (VArr els) ->
  Forall (fun p => p <> VUndef /\ p <> VNull) els ->
  exists pois,
    openstreetmapGetPOIs fetch bbox categories = Ok pois /\
    Forall2 (fun p r => normalize_poi p = Ok r) (filter tags_truthy els) pois.
Proof.
  intros Hq Hf He Hels.
  assert (Hkept : filterM has_tags els = Ok (filter tags_truthy els)).
  { apply filterM_filter. eapply Forall_impl; [|exact Hels].
    intros p [Hu Hn]. apply has_tags_total; assumption. }
  destruct (mapM_total normalize_poi (filter tags_truthy els)) as [pois Hpois].
  { apply Forall_forall. intros p Hp. apply filter_In in Hp. destruct Hp as [_ Hp].
    apply tags_truthy_inv in Hp. destruct Hp as (o & -> & _).
    destruct (normalize_poi_obj o) as (res & Hres & _). eauto. }
  exists pois. split.
  - unfold openstreetmapGetPOIs. rewrite Hq; simpl. rewrite Hf; simpl.
    rewrite He; simpl. rewrite Hkept; simpl. exact Hpois.
  - apply mapM_Forall2. exact Hpois.
Qed.

(** C3 (as amended): [openstreetmapGetPOIs] returns, in order and
    normalised, exactly the response elements whose [tags] field is truthy.
    So an element with at least one tag is retained and an element with no
    [tags] field is discarded; an element whose [tags] container is present
    but empty is retained too. *)
Theorem openstreetmapGetPOIs_keeps_truthy_tags fetch bbox categories quest data els :
  build_quest bbox categories EmptyString = Ok quest ->
  fetch (POST overpass_url (overpass_body quest)) = Ok data ->
  get_prop data "elements" = Ok (VArr els) ->
  Forall (fun p => p <> VUndef /\ p <> VNull) els ->
  exists pois,
    openstreetmapGetPOIs fetch bbox categories = Ok pois /\
    Forall2 (fun p r => normalize_poi p = Ok r) (filter tags_truthy els) pois /\
    (forall p, In p els -> 0 < tag_count p -> In p (filter tags_truthy els)) /\
    (forall o, obj_has o "tags" = false -> ~ In (VObj o) (filter tags_truthy els)) /\
    (forall o, In (VObj o) els -> obj_get o "tags" = VObj [] ->
               In (VObj o) (filter tags_truthy els)).
Proof.
  intros Hq Hf He Hels.
  destruct (openstreetmapGetPOIs_run fetch bbox categories quest data els Hq Hf He Hels)
    as (pois & Hrun & Hall).
  exists pois. split; [exact Hrun|]. split; [exact Hall|]. repeat split.
  - intros p Hin Hcount. apply filter_In. split; [exact Hin|].
    destruct p as [| |b|z|s|items|o]; simpl in Hcount; try lia.
    unfold tags_truthy, verdict, has_tags. simpl.
    destruct (obj_get o "tags") as [| |b|z|s|items|t]; simpl in Hcount; try lia.
    + destruct s; [simpl in Hcount; lia | reflexivity].
    + reflexivity.
    + reflexivity.
  - intros o Hno Hin. apply filter_In in Hin. destruct Hin as [_ Hin].
    unfold tags_truthy, verdict, has_tags in Hin. simpl in Hin.
    rewrite (obj_get_absent _ _ Hno) in Hin. discriminate.
  - intros o Hin Hempty. apply filter_In. split; [exact Hin|].
    unfold tags_truthy, verdict, has_tags. simpl. rewrite Hempty. reflexivity.
Qed.

Lemma openstreetmapGetPOIs_keeps_truthy_tags_witness :
  exists pois,
    openstreetmapGetPOIs (overpass_reply [tagged_node; bare_node; empty_tags_node])
                         (VStr "0,0,1,1") cafe_category = Ok pois /\
    Forall2 (fun p r => normalize_poi p = Ok r) [tagged_node; empty_tags_node] pois.
Proof.
  destruct (openstreetmapGetPOIs_keeps_truthy_tags
              (overpass_reply [tagged_node; bare_node; empty_tags_node])
              (VStr "0,0,1,1") cafe_category
              (category_clause (VStr "0,0,1,1") (VStr "amenity") (VStr "cafe"))
              (VObj [("elements", VArr [tagged_node; bare_node; empty_tags_node])])
              [tagged_node; bare_node; empty_tags_node])
    as (pois & Hrun & Hall & _).
  - reflexivity.
  - reflexivity.
  - reflexivity.
  - repeat constructor; discriminate.
  - exists pois. split; [exact Hrun | exact Hall].
Defined.

(** C3 (as stated) fails: an element whose [tags] container is empty carries
    no tag, yet the truthiness test keeps it. *)
Lemma openstreetmapGetPOIs_retains_empty_tags :
  tag_count empty_tags_node = 0 /\
  openstreetmapGetPOIs (overpass_reply [empty_tags_node]) (VStr "0,0,1,1") cafe_category
  = Ok [VObj [("type", VStr "node"); ("id", VNum 11);
              ("osm_url", VStr "https://www.openstreetmap.org/node/11");
              ("osm_url_edit", VStr "https://www.openstreetmap.org/edit?node=11")]].
Proof.
  split; reflexivity.
Qed.

(** C2: [openstreetmapGetRestaurants] passes its two categories as
    [{key, value}] objects, which the parameter pattern [[key, value]] of
    [openstreetmapGetPOIs] cannot iterate: the call throws before any query
    is built or sent, whatever the transport. *)
Theorem openstreetmapGetRestaurants_throws :
  forall fetch, openstreetmapGetRestaurants fetch = Throw TypeError.
Proof.
  intros fetch. reflexivity.
Qed.

(** The query is lost at the first category: as objects the two categories
    cannot be destructured, as pairs they give the six filters. *)
Lemma restaurant_categories_as_objects_or_pairs (bbox : value) :
  build_quest bbox
    [ VObj [("key", VStr "amenity"); ("value", VStr "cafe")];
      VObj [("key", VStr "amenity"); ("value", VStr "restaurant")] ] EmptyString
  = Throw TypeError /\
  build_quest bbox
    [ VArr [VStr "amenity"; VStr "cafe"]; VArr [VStr "amenity"; VStr "restaurant"] ]
    EmptyString
  = Ok (category_clause bbox (VStr "amenity") (VStr "cafe")
        ++ category_clause bbox (VStr "amenity") (VStr "restaurant")).
Proof.
  split; reflexivity.
Qed.

(** The sibling caller [getFoodShops] passes [[key, value]] arrays, and
    there the three filters are built for each category. *)
Lemma getFoodShops_quest (bbox : value) :
  build_quest bbox food_categories EmptyString
  = Ok (category_clause bbox (VStr "amenity") (VStr "cafe")
        ++ category_clause bbox (VStr "amenity") (VStr "restaurant")
        ++ category_clause bbox (VStr "shop") (VStr "deli")
        ++ category_clause bbox (VStr "amenity") (VStr "ice_cream")
        ++ category_clause bbox (VStr "amenity") (VStr "fast_food")).
Proof.
  unfold food_categories. cbn [build_quest destructure_pair bind nth fst snd].
  f_equal. change (EmptyString ++ ?x) with x. rewrite !string_app_assoc. reflexivity.
Qed.

(** The merged record read at a key other than [tags]: a tag of that name
    wins over the element's own field. *)
Lemma merged_get (o : object) (k : string) :
  let t := own_props (obj_get o "tags") in
  k <> "tags" -> distinct_keys o -> distinct_keys t ->
  obj_get (obj_delete (obj_assign (obj_assign [] o) t) "tags") k
  = if obj_has t k then obj_get t k else obj_get o k.
Proof.
  intros t Hk Ho Ht. rewrite obj_get_delete.
  apply String.eqb_neq in Hk. rewrite String.eqb_sym, Hk.
  rewrite obj_get_assign, obj_get_rev by assumption.
  rewrite obj_assign_nil_get by assumption. reflexivity.
Qed.

(** C1 (as amended): for every returned element whose record has a truthy
    [members] field (as when the raw element carries [members] and no tag
    of that name), the type segment of [osm_url] and [osm_url_edit] is
    [relation], whatever the [type] field says.  The [type] field itself is
    not rewritten: it is the tag named [type] when the element has one, and
    the raw [type] otherwise. *)
Theorem members_force_relation_links fetch bbox categories pois :
  openstreetmapGetPOIs fetch bbox categories = Ok pois ->
  exists quest data els,
    fetch (POST overpass_url (overpass_body quest)) = Ok data /\
    get_prop data "elements" = Ok (VArr els) /\
    Forall2
      relation_links
      (filter tags_truthy els) pois.
Proof.
  intros H. apply openstreetmapGetPOIs_inv in H.
  destruct H as (quest & data & els & _ & Hf & He & Hall).
  exists quest, data, els. split; [exact Hf|]. split; [exact He|].
  assert (Hkept : Forall (fun p => tags_truthy p = true) (filter tags_truthy els)).
  { apply Forall_forall. intros p Hp. apply filter_In in Hp. tauto. }
  induction Hall as [|p r ps rs Hpr _ IH]; [constructor|].
  inversion Hkept as [|? ? Hp Hps]; subst.
  constructor; [|apply IH; exact Hps].
  apply tags_truthy_inv in Hp. destruct Hp as (o & -> & _).
  destruct (normalize_poi_obj o) as (res & Hres & _ & Hkeep & Hurl & Hedit).
  rewrite Hres in Hpr. injection Hpr as <-.
  exists o, res. split; [reflexivity|]. split; [reflexivity|].
  cbv zeta. split; [|split].
  - intros Hm. unfold url_type in Hurl, Hedit. rewrite Hm in Hurl, Hedit.
    split; assumption.
  - intros Ho Ht Hm Hno. rewrite Hkeep by discriminate.
    rewrite merged_get by (assumption || discriminate).
    rewrite Hno. exact Hm.
  - intros Ho Ht. rewrite Hkeep by discriminate.
    apply merged_get; (assumption || discriminate).
Qed.

Lemma members_force_relation_links_witness :
  exists quest data els,
    overpass_reply [multipolygon_relation; bare_node]
                   (POST overpass_url (overpass_body quest)) = Ok data /\
    get_prop data "elements" = Ok (VArr els) /\
    Forall2
      relation_links
      (filter tags_truthy els)
      [VObj [("type", VStr "multipolygon"); ("id", VNum 7);
             ("members", VArr [outer_member]); ("name", VStr "Lake");
             ("osm_url", VStr "https://www.openstreetmap.org/relation/7");
             ("osm_url_edit", VStr "https://www.openstreetmap.org/edit?relation=7")]].
Proof.
  apply (members_force_relation_links
           (overpass_reply [multipolygon_relation; bare_node])
           (VStr "0,0,1,1") cafe_category).
  reflexivity.
Defined.

(** C1 (as stated) fails: the [type] field of the returned record is not
    forced to [relation].  A raw element with [members] and no [type] comes
    back without a [type], and a multipolygon relation comes back with
    [type] = [multipolygon]; only the links say [relation]. *)
Lemma members_do_not_force_type_field :
  truthy (obj_get (own_props untyped_relation) "members") = true /\
  openstreetmapGetPOIs (overpass_reply [untyped_relation]) (VStr "0,0,1,1") cafe_category
  = Ok [VObj [("id", VNum 8); ("members", VArr [outer_member]);
              ("name", VStr "Route 5");
              ("osm_url", VStr "https://www.openstreetmap.org/relation/8");
              ("osm_url_edit", VStr "https://www.openstreetmap.org/edit?relation=8")]] /\
  obj_get [("id", VNum 8); ("members", VArr [outer_member]);
           ("name", VStr "Route 5");
           ("osm_url", VStr "https://www.openstreetmap.org/relation/8");
           ("osm_url_edit", VStr "https://www.openstreetmap.org/edit?relation=8")]
          "type" = VUndef /\
  truthy (obj_get (own_props multipolygon_relation) "members") = true /\
  match openstreetmapGetPOIs (overpass_reply [multipolygon_relation]) (VStr "0,0,1,1")
                             cafe_category with
  | Ok [VObj res] => obj_get res "type"
  | _ => VUndef
  end = VStr "multipolygon".
Proof.
  repeat split; reflexivity.
Qed.

(** C6 (as amended): every element of a list returned by
    [openstreetmapGetPOIs] has no nested [tags] container, the tags having
    been merged into the record (but for a tag named [tags], [osm_url] or
    [osm_url_edit], and for a falsy [website] tag), and
    carries [osm_url] = [https://www.openstreetmap.org/{T}/{id}] and
    [osm_url_edit] = [https://www.openstreetmap.org/edit?{T}={id}], where
    [id] is the record's [id] and [T] is [relation] when the record's
    [members] is truthy and the record's [type] otherwise. *)
Theorem returned_pois_are_flat_with_links fetch bbox categories pois :
  openstreetmapGetPOIs fetch bbox categories = Ok pois ->
  exists quest data els,
    fetch (POST overpass_url (overpass_body quest)) = Ok data /\
    get_prop data "elements" = Ok (VArr els) /\
    Forall2 flattened (filter tags_truthy els) pois.
Proof.
  intros H. apply openstreetmapGetPOIs_inv in H.
  destruct H as (quest & data & els & _ & Hf & He & Hall).
  exists quest, data, els. split; [exact Hf|]. split; [exact He|].
  assert (Hkept : Forall (fun p => tags_truthy p = true) (filter tags_truthy els)).
  { apply Forall_forall. intros p Hp. apply filter_In in Hp. tauto. }
  induction Hall as [|p r ps rs Hpr _ IH]; [constructor|].
  inversion Hkept as [|? ? Hp Hps]; subst.
  constructor; [|apply IH; exact Hps].
  apply tags_truthy_inv in Hp. destruct Hp as (o & -> & _).
  destruct (normalize_poi_obj o) as (res & Hres & Hnotags & Hkeep & Hurl & Hedit).
  rewrite Hres in Hpr. injection Hpr as <-.
  exists o, res. split; [reflexivity|]. split; [reflexivity|].
  cbv zeta. split; [exact Hnotags|]. split; [|split; [|split; assumption]].
  - intros Ho Ht k Hk H1 H2 H3 H4. rewrite Hkeep by assumption.
    rewrite merged_get by assumption. rewrite Hk. reflexivity.
  - intros Ho Ht Hweb.
    destruct (normalize_poi_website o) as (res' & Hres' & Hsite).
    rewrite Hres in Hres'. injection Hres' as <-.
    rewrite Hsite, merged_get by (assumption || discriminate).
    destruct (obj_has (own_props (obj_get o "tags")) "website") eqn:Ehas.
    + rewrite Hweb. reflexivity.
    + rewrite (obj_get_absent _ _ Ehas) in Hweb. discriminate.
Qed.

Lemma returned_pois_are_flat_with_links_witness :
  exists quest data els,
    overpass_reply [tagged_node; bare_node]
                   (POST overpass_url (overpass_body quest)) = Ok data /\
    get_prop data "elements" = Ok (VArr els) /\
    Forall2 flattened (filter tags_truthy els)
      [VObj [("type", VStr "node"); ("id", VNum 9); ("lat", VNum 37);
             ("lon", VNum (-122)); ("amenity", VStr "cafe");
             ("contact:website", VStr "https://cafe.example");
             ("website", VStr "https://cafe.example");
             ("osm_url", VStr "https://www.openstreetmap.org/node/9");
             ("osm_url_edit", VStr "https://www.openstreetmap.org/edit?node=9")]].
Proof.
  apply (returned_pois_are_flat_with_links
           (overpass_reply [tagged_node; bare_node]) (VStr "0,0,1,1") cafe_category).
  reflexivity.
Defined.

(** C6 (as stated) fails, whichever [type] the links are to carry.  A
    multipolygon relation comes back with [type] = [multipolygon] (the tag
    overrides the element type in the merge) and links that say [relation],
    not the record's [type]; a node with a [type] tag comes back with links
    that say the tag's value, not the element's type [node]. *)
Lemma links_do_not_follow_type_field :
  openstreetmapGetPOIs (overpass_reply [multipolygon_relation]) (VStr "0,0,1,1")
                       cafe_category
  = Ok [VObj [("type", VStr "multipolygon"); ("id", VNum 7);
              ("members", VArr [outer_member]); ("name", VStr "Lake");
              ("osm_url", VStr "https://www.openstreetmap.org/relation/7");
              ("osm_url_edit", VStr "https://www.openstreetmap.org/edit?relation=7")]] /\
  osm_site ++ to_string (VStr "multipolygon") ++ "/" ++ to_string (VNum 7)
  = "https://www.openstreetmap.org/multipolygon/7" /\
  String.eqb "https://www.openstreetmap.org/relation/7"
             "https://www.openstreetmap.org/multipolygon/7" = false /\
  obj_get (own_props site_node) "type" = VStr "node" /\
  openstreetmapGetPOIs (overpass_reply [site_node]) (VStr "0,0,1,1") cafe_category
  = Ok [VObj [("type", VStr "site"); ("id", VNum 12);
              ("osm_url", VStr "https://www.openstreetmap.org/site/12");
              ("osm_url_edit", VStr "https://www.openstreetmap.org/edit?site=12")]].
Proof.
  repeat split; reflexivity.
Qed.

(** ** wikimediaQuery *)

(** C7 (as amended): when the decoded body has a truthy [error] field (any
    error object is), [wikimediaQuery] rejects with exactly that value and
    returns no list.  When [error] is absent or falsy and the body has a
    [query] object, it returns [query.geosearch] if that is truthy and the
    empty list otherwise. *)
Theorem wikimediaQuery_error_or_hits fetch (ne sw : object) limit d err :
  fetch (GET (wikimedia_api (obj_get ne "lat") (obj_get sw "lng") (obj_get sw "lat")
                            (obj_get ne "lng") (default limit (VNum 100)))) = Ok d ->
  get_prop d "error" = Ok err ->
  (truthy err = true ->
   wikimediaQuery fetch (VObj ne) (VObj sw) limit = Throw (Rejected err)) /\
  (forall e, err = VObj e ->
   wikimediaQuery fetch (VObj ne) (VObj sw) limit = Throw (Rejected (VObj e))) /\
  (truthy err = false ->
   forall query g, get_prop d "query" = Ok query -> get_prop query "geosearch" = Ok g ->
     wikimediaQuery fetch (VObj ne) (VObj sw) limit
     = Ok (if truthy g then g else VArr [])).
Proof.
  intros Hf He.
  assert (Hrun : wikimediaQuery fetch (VObj ne) (VObj sw) limit
                 = if truthy err then Throw (Rejected err)
                   else query <- get_prop d "query" ;;
                        g <- get_prop query "geosearch" ;;
                        Ok (if truthy g then g else VArr [])).
  { unfold wikimediaQuery. cbn [get_prop bind]. rewrite Hf. cbn [bind].
    rewrite He. reflexivity. }
  split; [|split].
  - intros Ht. rewrite Hrun, Ht. reflexivity.
  - intros e ->. rewrite Hrun. reflexivity.
  - intros Ht query g Hq Hg. rewrite Hrun, Ht, Hq. cbn [bind]. rewrite Hg. reflexivity.
Qed.

Lemma wikimediaQuery_error_or_hits_witness :
  wikimediaQuery (reply (VObj [("error", commons_error)]))
                 north_east south_west VUndef = Throw (Rejected commons_error) /\
  wikimediaQuery (reply (geosearch_reply (VArr [commons_hit])))
                 north_east south_west VUndef = Ok (VArr [commons_hit]).
Proof.
  split.
  - apply (wikimediaQuery_error_or_hits
             (reply (VObj [("error", commons_error)]))
             (own_props north_east) (own_props south_west) VUndef
             (VObj [("error", commons_error)]) commons_error);
      reflexivity.
  - destruct (wikimediaQuery_error_or_hits
                (reply (geosearch_reply (VArr [commons_hit])))
                (own_props north_east) (own_props south_west) VUndef
                (geosearch_reply (VArr [commons_hit])) VUndef
                eq_refl eq_refl) as (_ & _ & Hhits).
    apply (Hhits eq_refl (VObj [("geosearch", VArr [commons_hit])]) (VArr [commons_hit]));
      reflexivity.
Defined.

(** C7 (as stated) fails on both halves: a body that carries an [error]
    field holding [null] is not rejected, and a body with neither [error]
    nor [query] does not return a list. *)
Lemma wikimediaQuery_not_decided_by_error_field :
  obj_has [("error", VNull); ("query", VObj [("geosearch", VArr [commons_hit])])] "error"
  = true /\
  wikimediaQuery
    (reply (VObj [("error", VNull); ("query", VObj [("geosearch", VArr [commons_hit])])]))
    north_east south_west VUndef = Ok (VArr [commons_hit]) /\
  obj_has [("batchcomplete", VStr EmptyString)] "error" = false /\
  wikimediaQuery (reply (VObj [("batchcomplete", VStr EmptyString)]))
                 north_east south_west VUndef = Throw TypeError.
Proof.
  repeat split; reflexivity.
Qed.

(** ** wikimediaInfo *)

(** C8: when the requested page id is not a key of the per-page mapping the
    batch query returned, [wikimediaInfo] fails (reading [imageinfo] of
    [undefined] throws); it returns no result, empty or default. *)
Theorem wikimediaInfo_missing_page fetch pageid thumbWidth (pages : object) :
  wikimediaInfoMultiplePages fetch [pageid] (default thumbWidth (VNum 600))
  = Ok (VObj pages) ->
  obj_has pages (to_string pageid) = false ->
  wikimediaInfo fetch pageid thumbWidth = Throw TypeError.
Proof.
  intros Hpages Habsent. unfold wikimediaInfo. cbv zeta.
  rewrite Hpages. cbn [bind get_prop].
  rewrite (obj_get_absent _ _ Habsent). reflexivity.
Qed.

Lemma wikimediaInfo_missing_page_witness :
  wikimediaInfoMultiplePages (reply pages_reply) [VNum 13] (VNum 600)
  = Ok (VObj [("12", VObj [("pageid", VNum 12)])]) /\
  wikimediaInfo (reply pages_reply) (VNum 13) VUndef = Throw TypeError.
Proof.
  split; [reflexivity|].
  apply (wikimediaInfo_missing_page (reply pages_reply) (VNum 13) VUndef
           [("12", VObj [("pageid", VNum 12)])]); reflexivity.
Defined.

(** ** wikipediaQuery *)

Lemma add_url_Ok_inv (language a r : value) :
  add_url language a = Ok r ->
  exists o, a = VObj o /\
            r = VObj (obj_set o "url" (VStr (article_url language o))).
Proof.
  unfold add_url. intros H. inv_bind H.
  destruct a as [| |b|z|s|items|o]; try discriminate.
  exists o. split; [reflexivity|].
  cbn [get_prop] in E. injection E as <-.
  cbn [set_prop] in H. injection H as <-. reflexivity.
Qed.

Lemma add_url_has_article_url (language a r : value) :
  add_url language a = Ok r -> has_article_url language r.
Proof.
  intros H. apply add_url_Ok_inv in H. destruct H as (o & -> & ->).
  eexists. split; [reflexivity|].
  rewrite obj_get_set. str_eqb. unfold article_url.
  rewrite obj_get_set. str_eqb. reflexivity.
Qed.

(** Every hit that is an object gets its link: the call returns one record
    per hit, the hit with [url] set. *)
Lemma wikipediaQuery_run fetch lat lon language radius limit d q (hits : list object) :
  fetch (GET (wikipedia_api (default lat (VNum 37)) (default lon (VNum (-122)))
                (default language (VStr "en")) (default radius (VNum 10000))
                (default limit (VNum 100)))) = Ok d ->
  get_prop d "query" = Ok q ->
  get_prop q "geosearch" = Ok (VArr (map VObj hits)) ->
  wikipediaQuery fetch lat lon language radius limit
  = Ok (map (fun o => VObj (obj_set o "url"
                              (VStr (article_url (default language (VStr "en")) o))))
            hits).
Proof.
  intros Hf Hq Hg. unfold wikipediaQuery. cbv zeta.
  rewrite Hf; cbn [bind]. rewrite Hq; cbn [bind]. rewrite Hg; cbn [bind].
  clear Hg. induction hits as [|o hits IH]; [reflexivity|].
  cbn [map mapM]. unfold add_url at 1. cbn [get_prop set_prop bind].
  rewrite IH. reflexivity.
Qed.

(** C9: every record [wikipediaQuery] returns carries a [url] field equal
    to [https://{language}.wikipedia.org/wiki/{title}] for the record's own
    title; omitted parameters take the defaults 37, -122, [en], 10000 and
    100, so with all five omitted the request goes to the English API with
    those values and every [url] is [https://en.wikipedia.org/wiki/{title}]. *)
Theorem wikipediaQuery_urls fetch lat lon language radius limit records :
  wikipediaQuery fetch lat lon language radius limit = Ok records ->
  Forall (has_article_url (default language (VStr "en"))) records /\
  wikipediaQuery fetch (default lat (VNum 37)) (default lon (VNum (-122)))
                 (default language (VStr "en")) (default radius (VNum 10000))
                 (default limit (VNum 100)) = Ok records /\
  (lat = VUndef -> lon = VUndef -> language = VUndef -> radius = VUndef ->
   limit = VUndef ->
   (exists d,
       fetch (GET ("https://en.wikipedia.org/w/api.php?action=query&list=geosearch"
                     ++ "&gscoord=37%7C-122&gsradius=10000&gslimit=100"
                     ++ "&origin=*&format=json")) = Ok d) /\
   Forall (fun a => exists o, a = VObj o /\
                    obj_get o "url"
                    = VStr ("https://en.wikipedia.org/wiki/"
                              ++ to_string (obj_get o "title"))) records).
Proof.
  intros H.
  assert (Hall : Forall (has_article_url (default language (VStr "en"))) records).
  { unfold wikipediaQuery in H. cbv zeta in H.
    inv_bind H. inv_bind H. inv_bind H.
    destruct x1 as [| |b|z|s|items|o]; try discriminate.
    apply mapM_Forall2 in H. clear - H.
    induction H as [|a r l rs Har _ IH]; constructor; [|exact IH].
    eapply add_url_has_article_url. exact Har. }
  split; [exact Hall|]. split.
  - rewrite <- H. unfold wikipediaQuery.
    destruct lat, lon, language, radius, limit; reflexivity.
  - intros -> -> -> -> ->. split.
    + unfold wikipediaQuery in H. cbv zeta in H. inv_bind H.
      exists x. exact E.
    + exact Hall.
Qed.

Lemma wikipediaQuery_urls_witness :
  wikipediaQuery (reply (geosearch_reply (VArr [article])))
                 VUndef VUndef VUndef VUndef VUndef
  = Ok [VObj [("pageid", VNum 5); ("title", VStr "Oakland"); ("dist", VNum 3);
              ("url", VStr "https://en.wikipedia.org/wiki/Oakland")]] /\
  Forall (has_article_url (VStr "en"))
         [VObj [("pageid", VNum 5); ("title", VStr "Oakland"); ("dist", VNum 3);
                ("url", VStr "https://en.wikipedia.org/wiki/Oakland")]].
Proof.
  split; [reflexivity|].
  exact (proj1 (wikipediaQuery_urls (reply (geosearch_reply (VArr [article])))
                                    VUndef VUndef VUndef VUndef VUndef _ eq_refl)).
Defined.

(** ** The label [Set] *)

Lemma label_eqb_eq (a b : label) : label_eqb a b = true <-> a = b.
Proof.
  destruct a as [x|], b as [y|]; simpl; split; intros H;
    try discriminate; try reflexivity.
  - apply String.eqb_eq in H. congruence.
  - injection H as ->. apply String.eqb_refl.
Qed.

Lemma label_eqb_refl (a : label) : label_eqb a a = true.
Proof. apply label_eqb_eq. reflexivity. Qed.

Lemma label_eqb_neq (a b : label) : label_eqb a b = false <-> a <> b.
Proof.
  rewrite <- label_eqb_eq. destruct (label_eqb a b); split; congruence.
Qed.

Lemma label_eqb_sym (a b : label) : label_eqb a b = label_eqb b a.
Proof.
  destruct (label_eqb b a) eqn:E.
  - apply label_eqb_eq in E. subst. apply label_eqb_refl.
  - apply label_eqb_neq in E. apply label_eqb_neq. congruence.
Qed.

Lemma set_has_In (s : list label) (d : label) : set_has s d = true <-> In d s.
Proof.
  unfold set_has. rewrite existsb_exists. split.
  - intros (x & Hin & Heq). apply label_eqb_eq in Heq. subst. exact Hin.
  - intros Hin. exists d. split; [exact Hin | apply label_eqb_refl].
Qed.

Lemma set_has_notin (s : list label) (d : label) : set_has s d = false <-> ~ In d s.
Proof.
  rewrite <- set_has_In. destruct (set_has s d); split; congruence.
Qed.

Lemma set_has_app (s t : list label) (d : label) :
  set_has (s ++ t) d = set_has s d || set_has t d.
Proof. unfold set_has. apply existsb_app. Qed.

Lemma In_set_add (s : list label) (d x : label) :
  In x (set_add s d) <-> In x s \/ x = d.
Proof.
  unfold set_add. destruct (set_has s d) eqn:E.
  - apply set_has_In in E. split; [tauto|]. intros [H| ->]; assumption.
  - rewrite in_app_iff. simpl. intuition (subst; auto).
Qed.

Lemma NoDup_set_add (s : list label) (d : label) : NoDup s -> NoDup (set_add s d).
Proof.
  intros Hs. unfold set_add. destruct (set_has s d) eqn:E; [exact Hs|].
  apply set_has_notin in E.
  apply NoDup_rev in Hs. rewrite <- (rev_involutive (s ++ [d])).
  apply NoDup_rev. rewrite rev_app_distr. simpl. constructor; [|exact Hs].
  rewrite <- in_rev. exact E.
Qed.

Lemma In_add_all (l s : list label) (x : label) :
  In x (fold_left set_add l s) <-> In x s \/ In x l.
Proof.
  revert s; induction l as [|d l IH]; intros s; simpl.
  - tauto.
  - rewrite IH, In_set_add. split; intros H; intuition (subst; auto).
Qed.

Lemma NoDup_add_all (l s : list label) : NoDup s -> NoDup (fold_left set_add l s).
Proof.
  revert s; induction l as [|d l IH]; intros s Hs; simpl; [exact Hs|].
  apply IH, NoDup_set_add, Hs.
Qed.

Lemma filter_twice {A} (f g : A -> bool) (l : list A) :
  filter f (filter g l) = filter (fun x => g x && f x) l.
Proof.
  induction l as [|x l IH]; simpl; [reflexivity|].
  destruct (g x); simpl; [destruct (f x)|]; rewrite IH; reflexivity.
Qed.

(** The [Set] lists its elements in order of first insertion. *)
Lemma add_all_first_seen (l s : list label) :
  fold_left set_add l s
  = (s ++ filter (fun y => negb (set_has s y)) (first_seen l))%list.
Proof.
  revert s; induction l as [|x l IH]; intros s.
  - simpl. rewrite app_nil_r. reflexivity.
  - cbn [fold_left first_seen filter]. rewrite IH. unfold set_add.
    destruct (set_has s x) eqn:E; cbn [negb].
    + f_equal. rewrite filter_twice. apply filter_ext. intros y.
      destruct (label_eqb x y) eqn:Exy; [|reflexivity].
      apply label_eqb_eq in Exy. subst y. rewrite E. reflexivity.
    + rewrite <- app_assoc. cbn [app]. do 2 f_equal.
      rewrite filter_twice. apply filter_ext. intros y.
      rewrite set_has_app. unfold set_has at 2. cbn [existsb].
      rewrite orb_false_r, (label_eqb_sym y x).
      destruct (label_eqb x y), (set_has s y); reflexivity.
Qed.

Lemma dedup_first_seen (l : list label) : fold_left set_add l [] = first_seen l.
Proof.
  rewrite add_all_first_seen. cbn [app]. 
  rewrite <- (filter_ext (fun _ => true)); [|reflexivity].
  induction (first_seen l) as [|x r IH]; simpl; [reflexivity | rewrite IH; reflexivity].
Qed.

Lemma In_first_seen (l : list label) (x : label) : In x (first_seen l) <-> In x l.
Proof.
  rewrite <- dedup_first_seen, In_add_all. simpl. tauto.
Qed.

Lemma NoDup_first_seen (l : list label) : NoDup (first_seen l).
Proof.
  rewrite <- dedup_first_seen. apply NoDup_add_all. constructor.
Qed.

(** Adding a list and adding its distinct elements come to the same. *)
Lemma add_all_dedup (l s : list label) :
  fold_left set_add (fold_left set_add l []) s = fold_left set_add l s.
Proof.
  rewrite dedup_first_seen, !add_all_first_seen. f_equal.
  assert (Hidem : forall m, NoDup m -> first_seen m = m).
  { induction m as [|x m IHm]; intros Hm; [reflexivity|].
    inversion Hm as [|? ? Hx Hm']; subst. cbn [first_seen].
    rewrite IHm by assumption. f_equal.
    rewrite <- (filter_ext_in (fun _ => true)).
    - clear. induction m; simpl; congruence.
    - intros y Hy. symmetry. apply negb_true_iff, label_eqb_neq. congruence. }
  rewrite Hidem by apply NoDup_first_seen. reflexivity.
Qed.

(** ** The count [Map] *)

Lemma map_has_keys (m : dietsMap) (d : label) : map_has m d = set_has (map fst m) d.
Proof.
  unfold set_has. induction m as [|[k n] m IH]; simpl; [reflexivity|].
  rewrite IH, (label_eqb_sym d k). reflexivity.
Qed.

Lemma map_get_absent (m : dietsMap) (d : label) : map_has m d = false -> map_get m d = 0.
Proof.
  induction m as [|[k n] m IH]; simpl; [reflexivity|].
  destruct (label_eqb k d); simpl; [discriminate | exact IH].
Qed.

Lemma map_get_set (m : dietsMap) (d d' : label) (n : nat) :
  map_get (map_set m d n) d' = if label_eqb d d' then n else map_get m d'.
Proof.
  induction m as [|[k c] m IH]; simpl.
  - reflexivity.
  - destruct (label_eqb k d) eqn:E; simpl.
    + apply label_eqb_eq in E. subst k. destruct (label_eqb d d'); reflexivity.
    + rewrite IH. destruct (label_eqb k d') eqn:E'; [|reflexivity].
      apply label_eqb_eq in E'. subst k. rewrite label_eqb_sym, E. reflexivity.
Qed.

Lemma map_set_keys (m : dietsMap) (d : label) (n : nat) :
  map fst (map_set m d n) = set_add (map fst m) d.
Proof.
  unfold set_add. rewrite <- map_has_keys.
  induction m as [|[k c] m IH]; simpl; [reflexivity|].
  destruct (label_eqb k d) eqn:E; simpl; [reflexivity|].
  rewrite IH. destruct (map_has m d); reflexivity.
Qed.

Lemma count_diet_keys (m : dietsMap) (d : label) :
  map fst (count_diet m d) = set_add (map fst m) d.
Proof.
  unfold count_diet. destruct (map_has m d); apply map_set_keys.
Qed.

(** One [diets.forEach] step raises the count of [d] by one and no other. *)
Lemma count_diet_get (m : dietsMap) (d d' : label) :
  map_get (count_diet m d) d' = map_get m d' + (if label_eqb d d' then 1 else 0).
Proof.
  unfold count_diet. destruct (map_has m d) eqn:E; rewrite map_get_set.
  - destruct (label_eqb d d') eqn:E'; [|lia].
    apply label_eqb_eq in E'. subst d'. reflexivity.
  - destruct (label_eqb d d') eqn:E'; [|lia].
    apply label_eqb_eq in E'. subst d'. rewrite (map_get_absent _ _ E). reflexivity.
Qed.

Lemma count_all_keys (ds : list label) (m : dietsMap) :
  map fst (fold_left count_diet ds m) = fold_left set_add ds (map fst m).
Proof.
  revert m; induction ds as [|d ds IH]; intros m; simpl; [reflexivity|].
  rewrite IH, count_diet_keys. reflexivity.
Qed.

(** A POI's [Set] has no repeats, so each of its labels gains exactly one. *)
Lemma count_all_get (ds : list label) (m : dietsMap) (d' : label) :
  NoDup ds ->
  map_get (fold_left count_diet ds m) d'
  = map_get m d' + (if set_has ds d' then 1 else 0).
Proof.
  intros Hnd. revert m; induction Hnd as [|d ds Hd Hnd IH]; intros m.
  - simpl. lia.
  - cbn [fold_left]. rewrite IH, count_diet_get.
    unfold set_has at 2. cbn [existsb]. fold (set_has ds d').
    rewrite (label_eqb_sym d' d).
    destruct (label_eqb d d') eqn:E; cbn [orb]; [|lia].
    apply label_eqb_eq in E. subst d'.
    apply set_has_notin in Hd. rewrite Hd. lia.
Qed.

(** ** extractDiets *)

Lemma split_on_nonempty (sep : ascii) (s : string) : split_on sep s <> [].
Proof.
  destruct s as [|c r]; simpl; [discriminate|].
  destruct (Ascii.eqb c sep); [discriminate|].
  destruct (split_on sep r); discriminate.
Qed.

(** [key.split(`:`).at(1)] is the segment after the first colon. *)
Lemma diet_of_key_after_first_colon (key : string) :
  diet_of_key key = after_first_colon key.
Proof.
  unfold diet_of_key.
  assert (Hhead : forall s, exists t, split_on ":" s = until_colon s :: t).
  { induction s as [|c r [t IH]]; simpl; [eexists; reflexivity|].
    destruct (Ascii.eqb c ":"); [eexists; reflexivity|].
    rewrite IH. eexists; reflexivity. }
  induction key as [|c r IH]; simpl; [reflexivity|].
  destruct (Ascii.eqb c ":").
  - destruct (Hhead r) as [t ->]. reflexivity.
  - destruct (split_on ":" r) as [|h t] eqn:E.
    + exfalso. exact (split_on_nonempty _ _ E).
    + exact IH.
Qed.

Lemma after_first_colon_none (key : string) :
  has_colon key = false -> after_first_colon key = None.
Proof.
  induction key as [|c r IH]; simpl; [reflexivity|].
  destruct (Ascii.eqb c ":"); simpl; [discriminate | exact IH].
Qed.

Lemma fold_left_map {A B C} (f : A -> C -> A) (g : B -> C) (l : list B) (a : A) :
  fold_left (fun acc x => f acc (g x)) l a = fold_left f (map g l) a.
Proof.
  revert a; induction l as [|x l IH]; intros a; simpl; [reflexivity | apply IH].
Qed.

(** The [Set] of one POI: its labels (a) then (b), in order of first
    occurrence. *)
Lemma poi_diets_labels (poi : value) :
  cuisine_ok poi = true -> poi_diets poi = Ok (first_seen (poi_labels poi)).
Proof.
  unfold cuisine_ok, poi_diets, poi_labels, cuisine_labels, flag_labels, diet_keys.
  intros Hok. rewrite <- dedup_first_seen, fold_left_app.
  destruct (get_prop poi "cuisine") as [c|e]; [|discriminate].
  cbn [bind].
  assert (Hkeys : forall ds l,
             fold_left (fun acc key => set_add acc (diet_of_key key)) l ds
             = fold_left set_add (map after_first_colon l) ds).
  { intros ds l. rewrite (fold_left_map set_add diet_of_key). f_equal.
    apply map_ext. intros k. apply diet_of_key_after_first_colon. }
  destruct c as [| |b|z|s|items|o]; try discriminate; cbn [add_cuisine bind].
  - rewrite Hkeys. reflexivity.
  - rewrite Hkeys. reflexivity.
  - rewrite Hkeys.
    rewrite (fold_left_map set_add (fun c => Some (toLowerCase (trim c)))).
    reflexivity.
Qed.

Lemma set_has_first_seen (l : list label) (d : label) :
  set_has (first_seen l) d = set_has l d.
Proof.
  destruct (set_has l d) eqn:E.
  - apply set_has_In, In_first_seen, set_has_In. exact E.
  - apply set_has_notin. rewrite In_first_seen. apply set_has_notin. exact E.
Qed.

(** The scan: the keys of the [Map] are the labels in order of first
    meeting, and the count of a label is the number of POIs that have it. *)
Lemma count_pois_run (pois : list value) (m : dietsMap) :
  Forall (fun poi => cuisine_ok poi = true) pois ->
  exists m',
    count_pois pois m = Ok m' /\
    map fst m' = fold_left set_add (seen pois) (map fst m) /\
    forall d, map_get m' d = map_get m d + pois_with d pois.
Proof.
  intros Hok. revert m; induction Hok as [|poi pois Hpoi _ IH]; intros m.
  - exists m. repeat split; simpl. intros d. unfold pois_with. simpl. lia.
  - cbn [count_pois]. rewrite (poi_diets_labels _ Hpoi). cbn [bind].
    destruct (IH (fold_left count_diet (first_seen (poi_labels poi)) m))
      as (m' & Hrun & Hkeys & Hget).
    exists m'. split; [exact Hrun|]. split.
    + rewrite Hkeys, count_all_keys. unfold seen. cbn [map List.concat].
      rewrite fold_left_app. rewrite <- dedup_first_seen, add_all_dedup. reflexivity.
    + intros d. rewrite Hget, count_all_get by apply NoDup_first_seen.
      rewrite set_has_first_seen. unfold pois_with. cbn [filter].
      destruct (set_has (poi_labels poi) d); simpl; lia.
Qed.

(** ** The sort *)

Section SortFacts.
Context {A : Type} (cmp : A -> A -> Z).

Lemma insert_sorted_perm (x : A) (l : list A) :
  Permutation (insert_sorted cmp x l) (x :: l).
Proof.
  induction l as [|y l IH]; simpl; [apply Permutation_refl|].
  destruct (cmp x y <=? 0)%Z; [apply Permutation_refl|].
  eapply Permutation_trans; [apply perm_skip, IH | apply perm_swap].
Qed.

Lemma sort_perm (l : list A) : Permutation (sort cmp l) l.
Proof.
  induction l as [|x l IH]; simpl; [constructor|].
  eapply Permutation_trans; [apply insert_sorted_perm | apply perm_skip, IH].
Qed.
End SortFacts.





(** ** Reading counts off a list of pairs with distinct labels *)

Lemma map_get_In (m : dietsMap) (d : label) (n : nat) :
  NoDup (map fst m) -> In (d, n) m -> map_get m d = n.
Proof.
  induction m as [|[k c] m IH]; simpl; intros Hnd Hin; [contradiction|].
  inversion Hnd as [|? ? Hk Hm]; subst.
  destruct Hin as [Heq|Hin].
  - injection Heq as -> ->. rewrite label_eqb_refl. reflexivity.
  - destruct (label_eqb k d) eqn:E; [|apply IH; assumption].
    apply label_eqb_eq in E. subst k. exfalso. apply Hk.
    apply in_map_iff. exists (d, n). split; [reflexivity | exact Hin].
Qed.

Lemma In_map_get (m : dietsMap) (d : label) :
  In d (map fst m) -> In (d, map_get m d) m.
Proof.
  induction m as [|[k c] m IH]; simpl; intros Hin; [contradiction|].
  destruct (label_eqb k d) eqn:E.
  - apply label_eqb_eq in E. subst k. left. reflexivity.
  - right. apply IH. destruct Hin as [Heq|Hin]; [|exact Hin].
    apply label_eqb_neq in E. congruence.
Qed.

Lemma map_get_perm (m m' : dietsMap) (d : label) :
  NoDup (map fst m) -> Permutation m m' -> map_get m' d = map_get m d.
Proof.
  intros Hnd Hp.
  assert (Hnd' : NoDup (map fst m')).
  { eapply Permutation_NoDup; [apply Permutation_map, Hp | exact Hnd]. }
  destruct (set_has (map fst m) d) eqn:E.
  - apply set_has_In in E. apply In_map_get in E.
    apply map_get_In; [exact Hnd'|]. eapply Permutation_in; [exact Hp | exact E].
  - rewrite (map_get_absent m d) by (rewrite map_has_keys; exact E).
    apply map_get_absent. rewrite map_has_keys.
    apply set_has_notin. apply set_has_notin in E. intros Hin. apply E.
    eapply Permutation_in; [apply Permutation_sym, Permutation_map, Hp | exact Hin].
Qed.

(** The whole of [extractDiets] on POIs it accepts: the [Map] [m] lists
    the labels in order of first meeting with their POI counts, and the
    result is [m] sorted. *)
Lemma extractDiets_run (pois : list value) :
  Forall (fun poi => cuisine_ok poi = true) pois ->
  exists m,
    extractDiets pois = Ok (sort by_count_desc m) /\
    map fst m = first_seen (seen pois) /\
    forall d, map_get m d = pois_with d pois.
Proof.
  intros Hok. destruct (count_pois_run pois [] Hok) as (m & Hrun & Hkeys & Hget).
  exists m. split; [|split].
  - unfold extractDiets. rewrite Hrun. reflexivity.
  - rewrite Hkeys. apply dedup_first_seen.
  - intros d. rewrite Hget. reflexivity.
Qed.

(** [extractDiets] returns only on POIs it accepts; on any other list it
    throws. *)
Lemma poi_diets_Ok_inv (poi : value) (diets : list label) :
  poi_diets poi = Ok diets -> cuisine_ok poi = true.
Proof.
  unfold poi_diets, cuisine_ok. intros H. inv_bind H. inv_bind H. rewrite E.
  destruct x as [| |b|z|s|items|o]; try discriminate; reflexivity.
Qed.

Lemma count_pois_Ok_inv (pois : list value) (m m' : dietsMap) :
  count_pois pois m = Ok m' -> Forall (fun poi => cuisine_ok poi = true) pois.
Proof.
  revert m; induction pois as [|poi pois IH]; intros m H; [constructor|].
  simpl in H. inv_bind H. constructor.
  - eapply poi_diets_Ok_inv. exact E.
  - eapply IH. exact H.
Qed.

Lemma extractDiets_Ok_inv (pois : list value) (out : list (label * nat)) :
  extractDiets pois = Ok out -> Forall (fun poi => cuisine_ok poi = true) pois.
Proof.
  unfold extractDiets. intros H. inv_bind H. eapply count_pois_Ok_inv. exact E.
Qed.

(** The result of [extractDiets] has one entry per label met, and the
    count of a label is the number of POIs that have it. *)
Lemma extractDiets_entries (pois : list value) :
  Forall (fun poi => cuisine_ok poi = true) pois ->
  exists out,
    extractDiets pois = Ok out /\
    NoDup (map fst out) /\
    (forall d, In d (map fst out) <-> exists poi, In poi pois /\ In d (poi_labels poi)) /\
    (forall d, map_get out d = pois_with d pois).
Proof.
  intros Hok. destruct (extractDiets_run pois Hok) as (m & Hrun & Hkeys & Hget).
  assert (Hnd : NoDup (map fst m)) by (rewrite Hkeys; apply NoDup_first_seen).
  assert (Hperm : Permutation m (sort by_count_desc m))
    by apply Permutation_sym, sort_perm.
  exists (sort by_count_desc m). split; [exact Hrun|].
  split; [|split].
  - eapply Permutation_NoDup; [apply Permutation_map, Hperm | exact Hnd].
  - intros d. split.
    + intros Hin.
      assert (Hin' : In d (map fst m)).
      { eapply Permutation_in; [apply Permutation_sym, Permutation_map, Hperm|].
        exact Hin. }
      rewrite Hkeys, In_first_seen in Hin'. unfold seen in Hin'.
      apply in_concat in Hin'. destruct Hin' as (ls & Hls & Hd).
      apply in_map_iff in Hls. destruct Hls as (poi & <- & Hpoi).
      exists poi. split; assumption.
    + intros (poi & Hpoi & Hd).
      eapply Permutation_in; [apply Permutation_map, Hperm|].
      rewrite Hkeys, In_first_seen. unfold seen. apply in_concat.
      exists (poi_labels poi). split; [apply in_map; exact Hpoi | exact Hd].
  - intros d. rewrite (map_get_perm m _ d Hnd Hperm). apply Hget.
Qed.

(** The [Set] of a POI is the union of its labels (a) and (b), without
    repeats. *)
Lemma poi_diets_union (poi : value) :
  cuisine_ok poi = true ->
  exists diets,
    poi_diets poi = Ok diets /\ NoDup diets /\
    forall d, In d diets <-> In d (cuisine_labels poi) \/ In d (flag_labels poi).
Proof.
  intros Hok. exists (first_seen (poi_labels poi)).
  split; [apply poi_diets_labels, Hok|].
  split; [apply NoDup_first_seen|].
  intros d. rewrite In_first_seen. unfold poi_labels. apply in_app_iff.
Qed.

(** C4: in [extractDiets] the labels of a POI form a set, the union of (a)
    the trimmed, lower-cased tokens of its semicolon-split [cuisine] and
    (b) the segments after the first colon of the keys that start with
    [diet] and whose value is exactly [yes]; a POI adds one to the count of
    each of its labels and no more, so the count of a label is the number of
    POIs that have it.  On the example the counts are thai 1, italian 1,
    vegan 1. *)
Theorem extractDiets_counts_each_poi_once :
  (forall pois,
      Forall (fun poi => cuisine_ok poi = true) pois ->
      exists out,
        extractDiets pois = Ok out /\
        (forall poi, In poi pois ->
           exists diets,
             poi_diets poi = Ok diets /\ NoDup diets /\
             forall d, In d diets <-> In d (cuisine_labels poi) \/ In d (flag_labels poi)) /\
        NoDup (map fst out) /\
        (forall d, In d (map fst out) <-> exists poi, In poi pois /\ In d (poi_labels poi)) /\
        (forall d, map_get out d = pois_with d pois)) /\
  extractDiets example_pois
  = Ok [(Some "thai", 1); (Some "italian", 1); (Some "vegan", 1)].
Proof.
  split; [|reflexivity].
  intros pois Hok.
  destruct (extractDiets_entries pois Hok) as (out & Hrun & Hnd & Hkeys & Hget).
  exists out. split; [exact Hrun|]. split; [|repeat split; assumption || apply Hkeys].
  intros poi Hpoi. apply poi_diets_union.
  rewrite Forall_forall in Hok. apply Hok, Hpoi.
Qed.

Lemma extractDiets_counts_each_poi_once_witness :
  exists out,
    extractDiets example_pois = Ok out /\
    NoDup (map fst out) /\
    map_get out (Some "thai") = pois_with (Some "thai") example_pois.
Proof.
  destruct (proj1 extractDiets_counts_each_poi_once example_pois)
    as (out & Hrun & _ & Hnd & _ & Hget).
  - repeat constructor.
  - exists out. split; [exact Hrun|]. split; [exact Hnd | apply Hget].
Defined.

(** ** Order of first meeting *)









(** ** Keys without a colon *)

Lemma obj_get_present (o : object) (k : string) :
  obj_get o k <> VUndef -> In k (obj_keys o).
Proof.
  intros H. apply obj_has_In. destruct (obj_has o k) eqn:E; [reflexivity|].
  exfalso. apply H. apply obj_get_absent. exact E.
Qed.

(** C10: a key that starts with [diet], has no colon and holds exactly
    [yes] puts the nameless label ([undefined]) into the POI's set; the
    label is counted like any other and is an entry of the result. *)
Theorem bare_diet_key_counts_nameless (o : object) (key : string) (pois : list value) :
  startsWith key "diet" = true -> has_colon key = false ->
  obj_get o key = VStr "yes" ->
  In (VObj o) pois -> Forall (fun poi => cuisine_ok poi = true) pois ->
  (exists diets, poi_diets (VObj o) = Ok diets /\ In None diets) /\
  exists out n,
    extractDiets pois = Ok out /\ In (None, n) out /\
    n = pois_with None pois /\ 1 <= n.
Proof.
  intros Hstart Hcolon Hyes Hin Hok.
  assert (Hlabel : In None (poi_labels (VObj o))).
  { unfold poi_labels, flag_labels. apply in_app_iff. right.
    apply in_map_iff. exists key. split; [apply after_first_colon_none, Hcolon|].
    apply filter_In. cbn [own_props]. split.
    - apply obj_get_present. rewrite Hyes. discriminate.
    - rewrite Hstart, Hyes. reflexivity. }
  split.
  - exists (first_seen (poi_labels (VObj o))). split.
    + apply poi_diets_labels. rewrite Forall_forall in Hok. apply Hok, Hin.
    + apply In_first_seen, Hlabel.
  - destruct (extractDiets_entries pois Hok) as (out & Hrun & Hnd & Hkeys & Hget).
    assert (Hkey : In None (map fst out)).
    { apply Hkeys. exists (VObj o). split; assumption. }
    exists out, (map_get out None). split; [exact Hrun|].
    split; [apply In_map_get, Hkey|]. split; [apply Hget|].
    rewrite Hget. unfold pois_with.
    assert (Hmem : In (VObj o) (filter (fun poi => set_has (poi_labels poi) None) pois)).
    { apply filter_In. split; [exact Hin | apply set_has_In, Hlabel]. }
    destruct (filter _ pois); [contradiction | simpl; lia].
Qed.

Lemma bare_diet_key_counts_nameless_witness :
  (exists diets, poi_diets (VObj bare_diet_poi) = Ok diets /\ In None diets) /\
  exists out n,
    extractDiets [VObj bare_diet_poi] = Ok out /\ In (None, n) out /\
    n = pois_with None [VObj bare_diet_poi] /\ 1 <= n.
Proof.
  apply (bare_diet_key_counts_nameless bare_diet_poi "diet" [VObj bare_diet_poi]).
  - reflexivity.
  - reflexivity.
  - reflexivity.
  - left. reflexivity.
  - repeat constructor.
Defined.

(** * Further properties of the code *)

(** ** encodeURI *)

Lemma nat_of_ascii_bound (c : ascii) : nat_of_ascii c < 256.
Proof.
  destruct c as [[] [] [] [] [] [] [] []]; vm_compute; lia.
Qed.

Lemma hex_digit_unescaped (n : nat) : n < 16 -> uri_unescaped (hex_digit n) = true.
Proof.
  intros H. do 16 (destruct n as [|n]; [reflexivity|]). lia.
Qed.

Lemma hex_digit_inj (a b : nat) : a < 16 -> b < 16 -> hex_digit a = hex_digit b -> a = b.
Proof.
  intros Ha Hb H.
  assert (Hall : forallb (fun x => forallb (fun y =>
                   implb (Ascii.eqb (hex_digit x) (hex_digit y)) (Nat.eqb x y))
                   (seq 0 16)) (seq 0 16) = true) by reflexivity.
  rewrite forallb_forall in Hall.
  specialize (Hall a). rewrite in_seq in Hall. specialize (Hall ltac:(lia)).
  rewrite forallb_forall in Hall.
  specialize (Hall b). rewrite in_seq in Hall. specialize (Hall ltac:(lia)).
  rewrite H, Ascii.eqb_refl in Hall. simpl in Hall. apply Nat.eqb_eq. exact Hall.
Qed.

Lemma string_forall_app (P : ascii -> bool) (a b : string) :
  string_forall P (a ++ b) = string_forall P a && string_forall P b.
Proof.
  induction a as [|c a IH]; simpl; [reflexivity|].
  rewrite IH, andb_assoc. reflexivity.
Qed.

Lemma encodeURI_safe (s : string) : string_forall uri_safe (encodeURI s) = true.
Proof.
  induction s as [|c r IH]; [reflexivity|].
  cbn [encodeURI]. destruct (uri_unescaped c) eqn:E.
  - cbn [string_forall]. unfold uri_safe at 1. rewrite E, IH. reflexivity.
  - rewrite string_forall_app, IH, andb_true_r.
    unfold percent_encode. cbn [string_forall]. unfold uri_safe.
    pose proof (nat_of_ascii_bound c) as Hc.
    rewrite !hex_digit_unescaped.
    + reflexivity.
    + apply Nat.mod_upper_bound. lia.
    + apply Nat.Div0.div_lt_upper_bound. lia.
Qed.

(** X1: whatever the corners and the limit are, the URL [wikidataQuery]
    asks for holds only characters a URI may hold unescaped, and [%]: the
    spaces, quotes, braces and line ends of the SPARQL text are all
    escaped. *)
Theorem wikidataQuery_url_is_escaped (swLng swLat neLng neLat limit : value) :
  string_forall uri_safe
    (wikidata_endpoint
       ++ encodeURI (sparql_box_query swLng swLat neLng neLat limit)) = true.
Proof.
  rewrite string_forall_app, encodeURI_safe. reflexivity.
Qed.

Lemma percent_encode_inj (c c' : ascii) (x y : string) :
  percent_encode c ++ x = percent_encode c' ++ y -> c = c' /\ x = y.
Proof.
  unfold percent_encode.
  pose proof (nat_of_ascii_bound c) as Hc.
  pose proof (nat_of_ascii_bound c') as Hc'.
  assert (Hhi : nat_of_ascii c / 16 < 16) by (apply Nat.Div0.div_lt_upper_bound; lia).
  assert (Hhi' : nat_of_ascii c' / 16 < 16) by (apply Nat.Div0.div_lt_upper_bound; lia).
  assert (Hlo : nat_of_ascii c mod 16 < 16) by (apply Nat.mod_upper_bound; lia).
  assert (Hlo' : nat_of_ascii c' mod 16 < 16) by (apply Nat.mod_upper_bound; lia).
  pose proof (Nat.div_mod_eq (nat_of_ascii c) 16) as Hn.
  pose proof (Nat.div_mod_eq (nat_of_ascii c') 16) as Hn'.
  set (hi := nat_of_ascii c / 16) in *. set (lo := nat_of_ascii c mod 16) in *.
  set (hi' := nat_of_ascii c' / 16) in *. set (lo' := nat_of_ascii c' mod 16) in *.
  cbn [String.append]. intros H. injection H as H1 H2 H.
  apply hex_digit_inj in H1; [|assumption|assumption].
  apply hex_digit_inj in H2; [|assumption|assumption].
  split; [|exact H].
  rewrite <- (ascii_nat_embedding c), <- (ascii_nat_embedding c').
  f_equal. lia.
Qed.

(** [encodeURI] loses nothing: two texts with the same encoding are the same
    text. *)
Lemma encodeURI_injective (s t : string) : encodeURI s = encodeURI t -> s = t.
Proof.
  assert (Hpct : uri_unescaped "%" = false) by reflexivity.
  revert t; induction s as [|c r IH]; intros t H.
  - destruct t as [|c' r']; [reflexivity|].
    cbn [encodeURI] in H. destruct (uri_unescaped c'); discriminate.
  - destruct t as [|c' r']; cbn [encodeURI] in H.
    + destruct (uri_unescaped c); discriminate.
    + destruct (uri_unescaped c) eqn:E, (uri_unescaped c') eqn:E'.
      * injection H as -> H. f_equal. apply IH, H.
      * unfold percent_encode in H. cbn [String.append] in H.
        injection H as -> _. congruence.
      * unfold percent_encode in H. cbn [String.append] in H.
        injection H as <- _. congruence.
      * apply percent_encode_inj in H. destruct H as [-> H].
        f_equal. apply IH, H.
Qed.

Lemma string_app_inv_head (p a b : string) : p ++ a = p ++ b -> a = b.
Proof.
  induction p as [|c p IH]; simpl; intros H; [exact H|].
  injection H as H. apply IH, H.
Qed.

(** X2: the URL [wikidataQuery] asks for determines the SPARQL text: two
    calls that request the same URL sent the same query, so no two
    different boxes or limits are confused by the escaping. *)
Theorem wikidataQuery_url_keeps_query
        (swLng swLat neLng neLat limit swLng' swLat' neLng' neLat' limit' : value) :
  wikidata_endpoint ++ encodeURI (sparql_box_query swLng swLat neLng neLat limit)
  = wikidata_endpoint ++ encodeURI (sparql_box_query swLng' swLat' neLng' neLat' limit') ->
  sparql_box_query swLng swLat neLng neLat limit
  = sparql_box_query swLng' swLat' neLng' neLat' limit'.
Proof.
  intros H. apply encodeURI_injective. eapply string_app_inv_head. exact H.
Qed.

Lemma wikidataQuery_url_keeps_query_witness :
  sparql_box_query (VNum 1) (VNum 2) (VNum 3) (VNum 4) (VNum 5)
  = sparql_box_query (VNum 1) (VNum 2) (VNum 3) (VNum 4) (VStr "5").
Proof.
  apply wikidataQuery_url_keeps_query. reflexivity.
Defined.

(** [encodeURI] works piece by piece and leaves a text of unescaped
    characters as it is. *)
Lemma encodeURI_pieces :
  (forall a b, encodeURI (a ++ b) = encodeURI a ++ encodeURI b) /\
  (forall s, string_forall uri_unescaped s = true -> encodeURI s = s).
Proof.
  split.
  - intros a b. induction a as [|c a IH]; [reflexivity|].
    cbn [String.append encodeURI]. rewrite IH.
    destruct (uri_unescaped c); [reflexivity|].
    rewrite string_app_assoc. reflexivity.
  - induction s as [|c r IH]; [reflexivity|].
    cbn [string_forall encodeURI]. intros H. apply andb_true_iff in H.
    destruct H as [Hc Hr]. rewrite Hc, (IH Hr). reflexivity.
Qed.

Lemma encodeURI_pieces_witness :
  encodeURI "wikibase:cornerNorthEast" = "wikibase:cornerNorthEast".
Proof.
  apply (proj2 encodeURI_pieces). reflexivity.
Defined.

(** ** wikidataQuery *)

(** X3: [wikidataQuery] returns the body's [results.bindings] when that is
    truthy and the empty list when it is missing or falsy; a body without
    [results] makes it throw.  An omitted limit is 3000. *)
Theorem wikidataQuery_bindings_or_empty fetch (ne sw : object) limit (body : object) :
  fetch (GET (wikidata_endpoint
                ++ encodeURI (sparql_box_query (obj_get sw "lng") (obj_get sw "lat")
                                (obj_get ne "lng") (obj_get ne "lat")
                                (default limit (VNum 3000))))) = Ok (VObj body) ->
  (forall results,
      obj_get body "results" = VObj results ->
      wikidataQuery fetch (VObj ne) (VObj sw) limit
      = Ok (if truthy (obj_get results "bindings") then obj_get results "bindings"
            else VArr [])) /\
  (obj_has body "results" = false ->
   wikidataQuery fetch (VObj ne) (VObj sw) limit = Throw TypeError) /\
  (limit = VUndef ->
   wikidataQuery fetch (VObj ne) (VObj sw) limit
   = wikidataQuery fetch (VObj ne) (VObj sw) (VNum 3000)).
Proof.
  intros Hf. unfold wikidataQuery. cbn [get_prop bind]. cbv zeta.
  split; [|split].
  - intros results Hr. rewrite Hf. cbn [bind get_prop]. rewrite Hr. reflexivity.
  - intros Hno. rewrite Hf. cbn [bind get_prop].
    rewrite (obj_get_absent _ _ Hno). reflexivity.
  - intros ->. reflexivity.
Qed.

Lemma wikidataQuery_bindings_or_empty_witness :
  wikidataQuery (reply (VObj [("results", VObj [("bindings", sample_bindings)])]))
                north_east south_west VUndef = Ok sample_bindings.
Proof.
  exact (proj1 (wikidataQuery_bindings_or_empty
                  (reply (VObj [("results", VObj [("bindings", sample_bindings)])]))
                  (own_props north_east) (own_props south_west) VUndef
                  [("results", VObj [("bindings", sample_bindings)])] eq_refl)
               [("bindings", sample_bindings)] eq_refl).
Defined.

(** ** A missing [geosearch] list *)

(** X4: on a body whose [query] has no [geosearch], [wikimediaQuery]
    returns the empty list but [wikipediaQuery], which has no fallback,
    throws. *)
Theorem missing_geosearch_wikipedia_throws_wikimedia_empty
  (fetch : request -> outcome value) (body query : object) :
  (forall r, fetch r = Ok (VObj body)) ->
  obj_get body "query" = VObj query ->
  obj_has body "error" = false ->
  obj_has query "geosearch" = false ->
  (forall lat lon language radius limit,
      wikipediaQuery fetch lat lon language radius limit = Throw TypeError) /\
  (forall (ne sw : object) limit,
      wikimediaQuery fetch (VObj ne) (VObj sw) limit = Ok (VArr [])).
Proof.
  intros Hf Hq Herr Hgeo. split.
  - intros. unfold wikipediaQuery. cbv zeta. rewrite Hf. cbn [bind get_prop].
    rewrite Hq. cbn [bind get_prop]. rewrite (obj_get_absent _ _ Hgeo). reflexivity.
  - intros. unfold wikimediaQuery. cbv zeta. cbn [get_prop bind]. rewrite Hf.
    cbn [bind get_prop]. rewrite (obj_get_absent _ _ Herr). cbn [truthy].
    rewrite Hq. cbn [bind get_prop]. rewrite (obj_get_absent _ _ Hgeo). reflexivity.
Qed.

Lemma missing_geosearch_wikipedia_throws_wikimedia_empty_witness :
  wikipediaQuery (reply (VObj [("batchcomplete", VStr EmptyString); ("query", VObj [])]))
                 VUndef VUndef VUndef VUndef VUndef = Throw TypeError /\
  wikimediaQuery (reply (VObj [("batchcomplete", VStr EmptyString); ("query", VObj [])]))
                 north_east south_west VUndef = Ok (VArr []).
Proof.
  destruct (missing_geosearch_wikipedia_throws_wikimedia_empty
              (reply (VObj [("batchcomplete", VStr EmptyString); ("query", VObj [])]))
              [("batchcomplete", VStr EmptyString); ("query", VObj [])] [])
    as [Hpedia Hmedia].
  - intros r. reflexivity.
  - reflexivity.
  - reflexivity.
  - reflexivity.
  - split; [apply Hpedia | apply (Hmedia (own_props north_east) (own_props south_west))].
Defined.

(** ** The Overpass request *)

Lemma build_quest_arrays (bbox : value) (cats : list (list value)) (quest : string) :
  build_quest bbox (map VArr cats) quest
  = Ok (quest ++ String.concat EmptyString (map (clause_of bbox) cats)).
Proof.
  assert (Hnil : forall s : string, s ++ EmptyString = s).
  { induction s as [|c s IH]; simpl; [reflexivity | rewrite IH; reflexivity]. }
  assert (Hcat : forall x l, String.concat EmptyString (x :: l)
                             = x ++ String.concat EmptyString l).
  { intros x [|y l]; simpl; [rewrite Hnil|]; reflexivity. }
  revert quest; induction cats as [|items cats IH]; intros quest.
  - simpl. rewrite Hnil. reflexivity.
  - cbn [map build_quest destructure_pair bind fst snd]. rewrite IH.
    rewrite Hcat, string_app_assoc. reflexivity.
Qed.

(** X5: when every category is an array, [openstreetmapGetPOIs] posts one
    query to the Overpass interpreter whose union lists, category by
    category in the order given, a node, a way and a relation filter on the
    array's first two entries (further entries are ignored, a missing one
    reads [undefined]); the result is read off the body of that one reply. *)
Theorem openstreetmapGetPOIs_request fetch (bbox : value) (cats : list (list value)) :
  openstreetmapGetPOIs fetch bbox (map VArr cats)
  = bind (fetch (POST overpass_url
                   (overpass_body
                      (String.concat EmptyString (map (clause_of bbox) cats)))))
         read_elements.
Proof.
  unfold openstreetmapGetPOIs. rewrite build_quest_arrays. reflexivity.
Qed.

Lemma build_quest_not_iterable (bbox : value) (cats : list value) (quest : string) :
  existsb (fun c => negb (iterable c)) cats = true ->
  build_quest bbox cats quest = Throw TypeError.
Proof.
  revert quest; induction cats as [|c cats IH]; intros quest H; [discriminate|].
  cbn [existsb] in H. cbn [build_quest].
  destruct c as [| |b|z|s|items|o]; try reflexivity; cbn [iterable negb orb] in H;
    cbn [destructure_pair bind]; apply IH, H.
Qed.

(** X6: a category that is neither an array nor a string cannot be
    destructured: [openstreetmapGetPOIs] throws a [TypeError] whatever the
    other categories and the transport are, so no reply is ever read. *)
Theorem openstreetmapGetPOIs_category_not_iterable fetch (bbox : value) (cats : list value) :
  existsb (fun c => negb (iterable c)) cats = true ->
  openstreetmapGetPOIs fetch bbox cats = Throw TypeError.
Proof.
  intros H. unfold openstreetmapGetPOIs.
  rewrite (build_quest_not_iterable _ _ _ H). reflexivity.
Qed.

Lemma openstreetmapGetPOIs_category_not_iterable_witness :
  openstreetmapGetPOIs (overpass_reply [tagged_node]) (VStr "0,0,1,1")
    [VArr [VStr "amenity"; VStr "cafe"]; VNum 3] = Throw TypeError.
Proof.
  apply openstreetmapGetPOIs_category_not_iterable. reflexivity.
Defined.

Lemma filterM_has_tags_nullish (els : list value) :
  existsb nullish els = true -> filterM has_tags els = Throw TypeError.
Proof.
  induction els as [|p els IH]; intros H; [discriminate|].
  cbn [existsb] in H. cbn [filterM].
  destruct p as [| |b|z|s|items|o]; try reflexivity; cbn [nullish orb] in H;
    rewrite has_tags_total by discriminate; cbn [bind]; rewrite (IH H);
    reflexivity.
Qed.

(** X7: the body must hold an [elements] array of non-null entries: if
    [elements] is missing or not an array, or one entry is [null], the whole
    call throws a [TypeError] and no POI is returned. *)
Theorem openstreetmapGetPOIs_malformed_body fetch bbox categories quest (data : object) :
  build_quest bbox categories EmptyString = Ok quest ->
  fetch (POST overpass_url (overpass_body quest)) = Ok (VObj data) ->
  match obj_get data "elements" with
  | VArr els => existsb nullish els = true
  | _ => True
  end ->
  openstreetmapGetPOIs fetch bbox categories = Throw TypeError.
Proof.
  intros Hq Hf Hbad. unfold openstreetmapGetPOIs.
  rewrite Hq. cbn [bind]. rewrite Hf. cbn [bind get_prop].
  destruct (obj_get data "elements") as [| |b|z|s|els|o]; try reflexivity.
  rewrite (filterM_has_tags_nullish _ Hbad). reflexivity.
Qed.

Lemma openstreetmapGetPOIs_malformed_body_witness :
  openstreetmapGetPOIs (overpass_reply [tagged_node; VNull]) (VStr "0,0,1,1")
                       cafe_category = Throw TypeError /\
  openstreetmapGetPOIs (reply (VObj [("remark", VStr "runtime error")])) (VStr "0,0,1,1")
                       cafe_category = Throw TypeError.
Proof.
  split.
  - apply (openstreetmapGetPOIs_malformed_body
             (overpass_reply [tagged_node; VNull]) (VStr "0,0,1,1") cafe_category
             (category_clause (VStr "0,0,1,1") (VStr "amenity") (VStr "cafe"))
             [("elements", VArr [tagged_node; VNull])]); reflexivity.
  - apply (openstreetmapGetPOIs_malformed_body
             (reply (VObj [("remark", VStr "runtime error")])) (VStr "0,0,1,1")
             cafe_category
             (category_clause (VStr "0,0,1,1") (VStr "amenity") (VStr "cafe"))
             [("remark", VStr "runtime error")]); [reflexivity | reflexivity | exact I].
Defined.

(** ** Returned POIs *)

Lemma kept_are_objects (els : list value) :
  Forall (fun p => exists o, p = VObj o) (filter tags_truthy els).
Proof.
  apply Forall_forall. intros p Hp. apply filter_In in Hp. destruct Hp as [_ Hp].
  apply tags_truthy_inv in Hp. destruct Hp as (o & -> & _). eauto.
Qed.

Lemma Forall2_from_objects {P : value -> value -> Prop} (kept pois : list value) :
  Forall (fun p => exists o, p = VObj o) kept ->
  Forall2 (fun p r => normalize_poi p = Ok r) kept pois ->
  (forall o r, normalize_poi (VObj o) = Ok r -> P (VObj o) r) ->
  Forall2 P kept pois.
Proof.
  intros Hobj Hall HP. induction Hall as [|p r ps rs Hpr _ IH]; [constructor|].
  inversion Hobj as [|? ? [o ->] Hrest]; subst.
  constructor; [apply HP, Hpr | apply IH, Hrest].
Qed.

(** X8: every POI [openstreetmapGetPOIs] returns that has a truthy
    [contact:website] has a truthy [website]: its own, when it had one,
    and the contact one otherwise. *)
Theorem returned_pois_have_website fetch bbox categories pois :
  openstreetmapGetPOIs fetch bbox categories = Ok pois ->
  Forall website_filled pois.
Proof.
  intros H. apply openstreetmapGetPOIs_inv in H.
  destruct H as (quest & data & els & _ & _ & _ & Hall).
  pose proof (kept_are_objects els) as Hobj.
  induction Hall as [|p r ps rs Hpr _ IH]; [constructor|].
  inversion Hobj as [|? ? [o ->] Hrest]; subst.
  constructor; [|apply IH, Hrest].
  destruct (normalize_poi_obj o) as (res & Hres & _ & Hkeep & _).
  destruct (normalize_poi_website o) as (res' & Hres' & Hsite).
  rewrite Hres in Hres'. injection Hres' as <-.
  rewrite Hres in Hpr. injection Hpr as <-.
  exists res. split; [reflexivity|].
  rewrite Hsite, (Hkeep "contact:website") by discriminate.
  intros Hcontact. rewrite Hcontact, andb_true_r.
  destruct (truthy (obj_get _ "website")) eqn:E; cbn [negb]; [exact E | exact Hcontact].
Qed.

Lemma returned_pois_have_website_witness :
  Forall website_filled
    [VObj [("type", VStr "node"); ("id", VNum 9); ("lat", VNum 37);
           ("lon", VNum (-122)); ("amenity", VStr "cafe");
           ("contact:website", VStr "https://cafe.example");
           ("website", VStr "https://cafe.example");
           ("osm_url", VStr "https://www.openstreetmap.org/node/9");
           ("osm_url_edit", VStr "https://www.openstreetmap.org/edit?node=9")]].
Proof.
  apply (returned_pois_have_website (overpass_reply [tagged_node; bare_node])
                                    (VStr "0,0,1,1") cafe_category).
  reflexivity.
Defined.

(** X9: a returned POI keeps every field of the raw element that no tag
    shadows ([id], [lat], [lon], [members], ...), the [tags] container and
    the computed [website], [osm_url], [osm_url_edit] apart. *)
Theorem returned_pois_keep_element_fields fetch bbox categories pois :
  openstreetmapGetPOIs fetch bbox categories = Ok pois ->
  exists quest data els,
    fetch (POST overpass_url (overpass_body quest)) = Ok data /\
    get_prop data "elements" = Ok (VArr els) /\
    Forall2 keeps_element_fields (filter tags_truthy els) pois.
Proof.
  intros H. apply openstreetmapGetPOIs_inv in H.
  destruct H as (quest & data & els & _ & Hf & He & Hall).
  exists quest, data, els. split; [exact Hf|]. split; [exact He|].
  eapply Forall2_from_objects; [apply kept_are_objects | exact Hall|].
  intros o r Hr.
  destruct (normalize_poi_obj o) as (res & Hres & _ & Hkeep & _).
  rewrite Hres in Hr. injection Hr as <-.
  exists o, res. split; [reflexivity|]. split; [reflexivity|].
  intros Ho Ht k Hk H1 H2 H3 H4.
  rewrite Hkeep by assumption. rewrite merged_get by assumption.
  rewrite Hk. reflexivity.
Qed.

Lemma returned_pois_keep_element_fields_witness :
  exists quest data els,
    overpass_reply [tagged_node; bare_node]
                   (POST overpass_url (overpass_body quest)) = Ok data /\
    get_prop data "elements" = Ok (VArr els) /\
    Forall2 keeps_element_fields (filter tags_truthy els)
      [VObj [("type", VStr "node"); ("id", VNum 9); ("lat", VNum 37);
             ("lon", VNum (-122)); ("amenity", VStr "cafe");
             ("contact:website", VStr "https://cafe.example");
             ("website", VStr "https://cafe.example");
             ("osm_url", VStr "https://www.openstreetmap.org/node/9");
             ("osm_url_edit", VStr "https://www.openstreetmap.org/edit?node=9")]].
Proof.
  apply (returned_pois_keep_element_fields
           (overpass_reply [tagged_node; bare_node]) (VStr "0,0,1,1") cafe_category).
  reflexivity.
Defined.

(** ** getFoodShops *)

Lemma get_prop_throws_TypeError (v : value) (k : string) (e : error) :
  get_prop v k = Throw e -> e = TypeError.
Proof.
  destruct v as [| |b|z|s|items|o]; cbn [get_prop]; try discriminate; try congruence.
  - destruct (String.eqb k "length"); [discriminate|].
    destruct (index_of_key k); discriminate.
  - destruct (String.eqb k "length"); [discriminate|].
    destruct (index_of_key k); discriminate.
Qed.

(** X10: for a viewport with two corner objects, [getFoodShops] is the POI
    query over the box [south,west,north,east] (a missing coordinate leaves
    its place empty) with node, way and relation filters for cafes,
    restaurants, delis, ice-cream shops and fast food, in that order. *)
Theorem getFoodShops_request fetch (bounds ne sw : object) :
  obj_get bounds "_northEast" = VObj ne ->
  obj_get bounds "_southWest" = VObj sw ->
  let bbox := VStr (join "," [obj_get sw "lat"; obj_get sw "lng";
                              obj_get ne "lat"; obj_get ne "lng"]) in
  getFoodShops fetch (VObj bounds)
  = bind (fetch (POST overpass_url
                   (overpass_body
                      (category_clause bbox (VStr "amenity") (VStr "cafe")
                       ++ category_clause bbox (VStr "amenity") (VStr "restaurant")
                       ++ category_clause bbox (VStr "shop") (VStr "deli")
                       ++ category_clause bbox (VStr "amenity") (VStr "ice_cream")
                       ++ category_clause bbox (VStr "amenity") (VStr "fast_food")))))
         read_elements.
Proof.
  intros Hne Hsw bbox. unfold getFoodShops. cbn [get_prop bind].
  rewrite Hne, Hsw. cbn [get_prop bind]. fold bbox.
  unfold openstreetmapGetPOIs. rewrite getFoodShops_quest. reflexivity.
Qed.

Lemma getFoodShops_request_witness :
  getFoodShops (overpass_reply [tagged_node; bare_node]) sample_bounds
  = Ok [VObj [("type", VStr "node"); ("id", VNum 9); ("lat", VNum 37);
              ("lon", VNum (-122)); ("amenity", VStr "cafe");
              ("contact:website", VStr "https://cafe.example");
              ("website", VStr "https://cafe.example");
              ("osm_url", VStr "https://www.openstreetmap.org/node/9");
              ("osm_url_edit", VStr "https://www.openstreetmap.org/edit?node=9")]].
Proof.
  exact (eq_trans
           (getFoodShops_request (overpass_reply [tagged_node; bare_node])
              (own_props sample_bounds)
              [("lat", VNum 38); ("lng", VNum (-122))]
              [("lat", VNum 37); ("lng", VNum (-123))] eq_refl eq_refl)
           eq_refl).
Defined.

(** X11: a viewport that lacks [_northEast] or [_southWest] makes
    [getFoodShops] throw a [TypeError] before anything is requested. *)
Theorem getFoodShops_missing_corner fetch (bounds : object) :
  obj_has bounds "_northEast" = false \/ obj_has bounds "_southWest" = false ->
  getFoodShops fetch (VObj bounds) = Throw TypeError.
Proof.
  intros H. unfold getFoodShops. cbn [get_prop bind].
  destruct (obj_has bounds "_southWest") eqn:Esw.
  - destruct H as [Hne|Hsw]; [|discriminate].
    rewrite (obj_get_absent _ _ Hne).
    destruct (get_prop (obj_get bounds "_southWest") "lat") as [s|e] eqn:Es.
    + cbn [bind].
      assert (Hw : exists w, get_prop (obj_get bounds "_southWest") "lng" = Ok w).
      { destruct (obj_get bounds "_southWest") as [| |b|z|x|items|o];
          try discriminate; cbn [get_prop];
          try (destruct (String.eqb "lng" "length"); eauto;
               destruct (index_of_key "lng"); eauto); eauto. }
      destruct Hw as [w ->]. reflexivity.
    + apply get_prop_throws_TypeError in Es. subst e. reflexivity.
  - rewrite (obj_get_absent _ _ Esw). reflexivity.
Qed.

Lemma getFoodShops_missing_corner_witness :
  getFoodShops (overpass_reply [tagged_node])
               (VObj [("_southWest", VObj [("lat", VNum 37); ("lng", VNum (-123))])])
  = Throw TypeError.
Proof.
  apply getFoodShops_missing_corner. left. reflexivity.
Defined.

(** ** extractDiets: failure, bounds, totals *)

Lemma poi_diets_not_ok (poi : value) :
  cuisine_ok poi = false -> poi_diets poi = Throw TypeError.
Proof.
  unfold cuisine_ok, poi_diets. intros H.
  destruct (get_prop poi "cuisine") as [c|e] eqn:E.
  - destruct c; try discriminate; reflexivity.
  - apply get_prop_throws_TypeError in E. subst e. reflexivity.
Qed.

Lemma count_pois_throws (pois : list value) (m : dietsMap) :
  existsb (fun poi => negb (cuisine_ok poi)) pois = true ->
  count_pois pois m = Throw TypeError.
Proof.
  revert m; induction pois as [|poi pois IH]; intros m H; [discriminate|].
  cbn [existsb] in H. cbn [count_pois].
  destruct (cuisine_ok poi) eqn:E.
  - rewrite (poi_diets_labels _ E). cbn [bind]. apply IH. exact H.
  - rewrite (poi_diets_not_ok _ E). reflexivity.
Qed.

(** X12: [extractDiets] throws, and then it is a [TypeError], exactly when
    some POI is [undefined] or [null] or has a [cuisine] that is neither
    absent, [null] nor a string; one such POI anywhere in the list loses
    the counts of all the others. *)
Theorem extractDiets_throws_iff (pois : list value) :
  (extractDiets pois = Throw TypeError
   <-> existsb (fun poi => negb (cuisine_ok poi)) pois = true) /\
  (forall e, extractDiets pois = Throw e -> e = TypeError).
Proof.
  assert (Hcases : existsb (fun poi => negb (cuisine_ok poi)) pois = true
                   \/ Forall (fun poi => cuisine_ok poi = true) pois).
  { induction pois as [|poi pois [IH|IH]]; cbn [existsb].
    - right. constructor.
    - left. rewrite IH. apply orb_true_r.
    - destruct (cuisine_ok poi) eqn:E; [right; constructor; assumption | left; reflexivity]. }
  destruct Hcases as [Hbad|Hok].
  - assert (Hthrow : extractDiets pois = Throw TypeError).
    { unfold extractDiets. rewrite (count_pois_throws _ _ Hbad). reflexivity. }
    split; [tauto|]. intros e He. congruence.
  - destruct (extractDiets_run pois Hok) as (m & Hrun & _).
    split; [|intros e He; congruence].
    split; intros H; [congruence|].
    exfalso. rewrite Forall_forall in Hok.
    apply existsb_exists in H. destruct H as (poi & Hin & Hpoi).
    rewrite (Hok poi Hin) in Hpoi. discriminate.
Qed.

Lemma pois_with_le (d : label) (pois : list value) : pois_with d pois <= List.length pois.
Proof.
  unfold pois_with. induction pois as [|poi pois IH]; simpl; [lia|].
  destruct (set_has (poi_labels poi) d); simpl; lia.
Qed.

(** X13: every count [extractDiets] returns is at least 1 and at most the
    number of POIs: no label is listed with count 0 and none is counted
    twice for one POI. *)
Theorem extractDiets_count_bounds (pois : list value) (out : list (label * nat)) :
  extractDiets pois = Ok out ->
  forall d n, In (d, n) out -> 1 <= n <= List.length pois.
Proof.
  intros Hout d n Hin.
  destruct (extractDiets_entries pois (extractDiets_Ok_inv _ _ Hout))
    as (out' & Hrun & Hnd & Hkeys & Hget).
  rewrite Hout in Hrun. injection Hrun as <-.
  assert (Hn : n = pois_with d pois).
  { rewrite <- Hget. symmetry. apply map_get_In; assumption. }
  subst n. split; [|apply pois_with_le].
  assert (Hkey : In d (map fst out)).
  { apply in_map_iff. exists (d, pois_with d pois). split; [reflexivity | exact Hin]. }
  apply Hkeys in Hkey. destruct Hkey as (poi & Hpoi & Hd).
  unfold pois_with.
  assert (Hmem : In poi (filter (fun poi => set_has (poi_labels poi) d) pois)).
  { apply filter_In. split; [exact Hpoi | apply set_has_In, Hd]. }
  destruct (filter _ pois); [contradiction | simpl; lia].
Qed.

Lemma extractDiets_count_bounds_witness :
  extractDiets example_pois
  = Ok [(Some "thai", 1); (Some "italian", 1); (Some "vegan", 1)] /\
  1 <= 1 <= List.length example_pois.
Proof.
  split; [reflexivity|].
  exact (extractDiets_count_bounds example_pois _ eq_refl (Some "italian") 1
           (or_intror (or_introl eq_refl))).
Defined.

Lemma map_set_sum (m : dietsMap) (d : label) (n : nat) :
  sum_counts (map_set m d n) + map_get m d = sum_counts m + n.
Proof.
  unfold sum_counts. induction m as [|[k c] m IH]; simpl; [lia|].
  destruct (label_eqb k d); simpl; lia.
Qed.

Lemma count_diet_sum (m : dietsMap) (d : label) :
  sum_counts (count_diet m d) = sum_counts m + 1.
Proof.
  unfold count_diet. destruct (map_has m d) eqn:E.
  - pose proof (map_set_sum m d (map_get m d + 1)). lia.
  - pose proof (map_set_sum m d 1). rewrite (map_get_absent _ _ E) in H. lia.
Qed.

Lemma count_all_sum (ds : list label) (m : dietsMap) :
  sum_counts (fold_left count_diet ds m) = sum_counts m + List.length ds.
Proof.
  revert m; induction ds as [|d ds IH]; intros m; simpl; [lia|].
  rewrite IH, count_diet_sum. lia.
Qed.

Lemma count_pois_sum (pois : list value) (m m' : dietsMap) :
  count_pois pois m = Ok m' ->
  sum_counts m'
  = sum_counts m
    + list_sum (map (fun poi => List.length (first_seen (poi_labels poi))) pois).
Proof.
  revert m; induction pois as [|poi pois IH]; intros m H; simpl in H.
  - injection H as <-. simpl. lia.
  - inv_bind H. pose proof (poi_diets_Ok_inv _ _ E) as Hok.
    rewrite (poi_diets_labels _ Hok) in E. injection E as <-.
    rewrite (IH _ H), count_all_sum. simpl. lia.
Qed.

(** X14: the counts [extractDiets] returns add up to the number of
    (POI, label) pairs: the sum over the POIs of the number of distinct
    labels each has. *)
Theorem extractDiets_total (pois : list value) (out : list (label * nat)) :
  extractDiets pois = Ok out ->
  sum_counts out
  = list_sum (map (fun poi => List.length (first_seen (poi_labels poi))) pois).
Proof.
  unfold extractDiets. intros H. inv_bind H. injection H as <-.
  pose proof (count_pois_sum _ _ _ E) as Hsum.
  change (sum_counts []) with 0 in Hsum. cbn [Nat.add] in Hsum.
  rewrite <- Hsum.
  unfold sum_counts. apply Permutation_list_sum, Permutation_map, sort_perm.
Qed.

Lemma extractDiets_total_witness :
  sum_counts [(Some "thai", 1); (Some "italian", 1); (Some "vegan", 1)] = 3.
Proof.
  exact (extractDiets_total example_pois _ eq_refl).
Defined.

(** ** extractDiets: how the POI list matters *)

Lemma count_pois_app (a b : list value) (m : dietsMap) :
  count_pois (a ++ b) m = bind (count_pois a m) (count_pois b).
Proof.
  revert m; induction a as [|poi a IH]; intros m; [reflexivity|].
  cbn [app count_pois]. destruct (poi_diets poi) as [ds|e]; [|reflexivity].
  cbn [bind]. apply IH.
Qed.

(** X15: a POI without [cuisine] and without [diet...=yes] keys contributes
    nothing: wherever it stands in the list, the result is the one of the
    list without it. *)
Theorem extractDiets_skips_unlabelled (a b : list value) (poi : value) :
  cuisine_ok poi = true -> poi_labels poi = [] ->
  extractDiets (a ++ poi :: b) = extractDiets (a ++ b).
Proof.
  intros Hok Hnone. unfold extractDiets. rewrite !count_pois_app.
  destruct (count_pois a []) as [m|e]; [|reflexivity].
  cbn [bind count_pois]. rewrite (poi_diets_labels _ Hok), Hnone. reflexivity.
Qed.

Lemma extractDiets_skips_unlabelled_witness :
  extractDiets [VObj [("cuisine", VStr "thai")]; tagged_node;
                VObj [("diet:vegan", VStr "yes")]]
  = extractDiets [VObj [("cuisine", VStr "thai")]; VObj [("diet:vegan", VStr "yes")]].
Proof.
  apply (extractDiets_skips_unlabelled [VObj [("cuisine", VStr "thai")]]
           [VObj [("diet:vegan", VStr "yes")]] tagged_node); reflexivity.
Defined.

Lemma pois_with_perm (d : label) (pois pois' : list value) :
  Permutation pois pois' -> pois_with d pois = pois_with d pois'.
Proof.
  unfold pois_with. induction 1 as [|x l l' _ IH|x y l|l l' l'' _ IH1 _ IH2]; simpl.
  - reflexivity.
  - destruct (set_has (poi_labels x) d); simpl; lia.
  - destruct (set_has (poi_labels x) d), (set_has (poi_labels y) d); reflexivity.
  - lia.
Qed.

Lemma entries_In (out : list (label * nat)) (d : label) (n : nat) :
  NoDup (map fst out) ->
  (In (d, n) out <-> In d (map fst out) /\ n = map_get out d).
Proof.
  intros Hnd. split.
  - intros Hin. split.
    + apply in_map_iff. exists (d, n). split; [reflexivity | exact Hin].
    + symmetry. apply map_get_In; assumption.
  - intros [Hkey ->]. apply In_map_get, Hkey.
Qed.

(** X16: the order of the POIs decides only the order of ties: on a
    reordered list [extractDiets] returns the same label-count pairs. *)
Theorem extractDiets_reordered (pois pois' : list value) (out : list (label * nat)) :
  Permutation pois pois' ->
  extractDiets pois = Ok out ->
  exists out', extractDiets pois' = Ok out' /\ Permutation out out'.
Proof.
  intros Hperm Hout.
  pose proof (extractDiets_Ok_inv _ _ Hout) as Hok.
  assert (Hok' : Forall (fun poi => cuisine_ok poi = true) pois').
  { eapply Permutation_Forall; eassumption. }
  destruct (extractDiets_entries pois Hok) as (o & Hrun & Hnd & Hkeys & Hget).
  rewrite Hout in Hrun. injection Hrun as <-.
  destruct (extractDiets_entries pois' Hok') as (out' & Hrun' & Hnd' & Hkeys' & Hget').
  exists out'. split; [exact Hrun'|].
  apply NoDup_Permutation.
  - eapply NoDup_map_inv. exact Hnd.
  - eapply NoDup_map_inv. exact Hnd'.
  - intros [d n]. rewrite !entries_In by assumption.
    rewrite Hkeys, Hkeys', Hget, Hget', (pois_with_perm d pois pois' Hperm).
    split; intros [(poi & Hin & Hd) Hn]; (split; [|exact Hn]); exists poi;
      (split; [|exact Hd]).
    + eapply Permutation_in; eassumption.
    + eapply Permutation_in; [apply Permutation_sym|]; eassumption.
Qed.

Lemma extractDiets_reordered_witness :
  exists out',
    extractDiets [VObj [("cuisine", VStr "italian")]; VObj [("cuisine", VStr "Thai; thai")];
                  VObj [("diet:vegan", VStr "yes")]] = Ok out' /\
    Permutation [(Some "thai", 1); (Some "italian", 1); (Some "vegan", 1)] out'.
Proof.
  apply (extractDiets_reordered example_pois).
  - apply perm_swap.
  - reflexivity.
Defined.

(** X17: counting is additive: the count of a label over two lists put
    together is the sum of its counts over each (a label a list lacks
    counting 0 there). *)
Theorem extractDiets_additive (a b : list value) (out : list (label * nat)) :
  extractDiets (a ++ b) = Ok out ->
  exists out_a out_b,
    extractDiets a = Ok out_a /\ extractDiets b = Ok out_b /\
    forall d, map_get out d = map_get out_a d + map_get out_b d.
Proof.
  intros Hout.
  pose proof (extractDiets_Ok_inv _ _ Hout) as Hok.
  apply Forall_app in Hok. destruct Hok as [Hoka Hokb].
  destruct (extractDiets_entries a Hoka) as (oa & Hra & _ & _ & Hga).
  destruct (extractDiets_entries b Hokb) as (ob & Hrb & _ & _ & Hgb).
  destruct (extractDiets_entries (a ++ b) (extractDiets_Ok_inv _ _ Hout))
    as (o & Hr & _ & _ & Hg).
  rewrite Hout in Hr. injection Hr as <-.
  exists oa, ob. split; [exact Hra|]. split; [exact Hrb|].
  intros d. rewrite Hg, Hga, Hgb. unfold pois_with.
  rewrite filter_app, length_app. reflexivity.
Qed.

Lemma extractDiets_additive_witness :
  exists out_a out_b,
    extractDiets (example_pois ++ example_pois) = Ok [(Some "thai", 2); (Some "italian", 2);
                                                      (Some "vegan", 2)] /\
    extractDiets example_pois = Ok out_a /\ extractDiets example_pois = Ok out_b /\
    forall d, map_get [(Some "thai", 2); (Some "italian", 2); (Some "vegan", 2)] d
              = map_get out_a d + map_get out_b d.
Proof.
  destruct (extractDiets_additive example_pois example_pois _ eq_refl)
    as (oa & ob & Ha & Hb & Hsum).
  exists oa, ob. split; [reflexivity|]. split; [exact Ha|]. split; [exact Hb | exact Hsum].
Defined.

(** ** wikipediaQuery: the records *)

Lemma obj_set_keys_same (o : object) (k : string) (v w : value) :
  obj_keys (obj_set o k v) = obj_keys (obj_set o k w).
Proof.
  unfold obj_keys. induction o as [|[k0 v0] o IH]; simpl; [reflexivity|].
  destruct (String.eqb k0 k); simpl; [reflexivity | rewrite IH; reflexivity].
Qed.

(** X18: when the body holds a [geosearch] array of objects,
    [wikipediaQuery] returns one record per hit, in the order of the hits;
    each record is its hit with [url] set (replacing a [url] the hit had,
    in place) and every other field unchanged. *)
Theorem wikipediaQuery_records fetch lat lon language radius limit d q (hits : list object) :
  fetch (GET (wikipedia_api (default lat (VNum 37)) (default lon (VNum (-122)))
                (default language (VStr "en")) (default radius (VNum 10000))
                (default limit (VNum 100)))) = Ok d ->
  get_prop d "query" = Ok q ->
  get_prop q "geosearch" = Ok (VArr (map VObj hits)) ->
  exists records,
    wikipediaQuery fetch lat lon language radius limit = Ok (map VObj records) /\
    Forall2 (hit_with_url (default language (VStr "en"))) hits records.
Proof.
  intros Hf Hq Hg.
  exists (map (fun o => obj_set o "url"
                          (VStr (article_url (default language (VStr "en")) o))) hits).
  split.
  - rewrite (wikipediaQuery_run fetch lat lon language radius limit d q hits Hf Hq Hg).
    rewrite map_map. reflexivity.
  - clear. induction hits as [|o hits IH]; [constructor|].
    cbn [map]. constructor; [|exact IH].
    split; [|split].
    + rewrite obj_get_set, String.eqb_refl. reflexivity.
    + apply obj_set_keys_same.
    + intros k Hk. rewrite obj_get_set.
      apply String.eqb_neq in Hk. rewrite String.eqb_sym, Hk. reflexivity.
Qed.

Lemma wikipediaQuery_records_witness :
  exists records,
    wikipediaQuery (reply (geosearch_reply (VArr [article])))
                   VUndef VUndef (VStr "fr") VUndef VUndef = Ok (map VObj records) /\
    Forall2 (hit_with_url (VStr "fr")) [own_props article] records.
Proof.
  apply (wikipediaQuery_records (reply (geosearch_reply (VArr [article])))
           VUndef VUndef (VStr "fr") VUndef VUndef
           (geosearch_reply (VArr [article]))
           (VObj [("geosearch", VArr [article])]) [own_props article]); reflexivity.
Defined.

Lemma add_url_primitive (language a : value) :
  is_object a = false -> is_array a = false -> add_url language a = Throw TypeError.
Proof.
  destruct a as [| |b|z|s|items|o]; intros Ho Ha; try discriminate; reflexivity.
Qed.

(** X19: a hit that is not an object ([null], a string, a number, ...)
    makes [wikipediaQuery] throw a [TypeError] as a whole: the records of
    the other hits are not returned. *)
Theorem wikipediaQuery_primitive_hit fetch lat lon language radius limit d q
        (items : list value) :
  fetch (GET (wikipedia_api (default lat (VNum 37)) (default lon (VNum (-122)))
                (default language (VStr "en")) (default radius (VNum 10000))
                (default limit (VNum 100)))) = Ok d ->
  get_prop d "query" = Ok q ->
  get_prop q "geosearch" = Ok (VArr items) ->
  forallb (fun a => negb (is_array a)) items = true ->
  existsb (fun a => negb (is_object a)) items = true ->
  wikipediaQuery fetch lat lon language radius limit = Throw TypeError.
Proof.
  intros Hf Hq Hg Harr Hprim. unfold wikipediaQuery. cbv zeta.
  rewrite Hf; cbn [bind]. rewrite Hq; cbn [bind]. rewrite Hg; cbn [bind].
  clear Hg. induction items as [|a items IH]; [discriminate|].
  cbn [forallb existsb] in Harr, Hprim. apply andb_true_iff in Harr.
  destruct Harr as [Ha Harr]. cbn [mapM].
  destruct (is_object a) eqn:Eo.
  - destruct a; try discriminate. cbn [negb orb] in Hprim.
    unfold add_url at 1. cbn [get_prop set_prop bind].
    rewrite (IH Harr Hprim). reflexivity.
  - apply negb_true_iff in Ha. rewrite (add_url_primitive _ _ Eo Ha). reflexivity.
Qed.

Lemma wikipediaQuery_primitive_hit_witness :
  wikipediaQuery (reply (geosearch_reply (VArr [article; VNull])))
                 VUndef VUndef VUndef VUndef VUndef = Throw TypeError.
Proof.
  apply (wikipediaQuery_primitive_hit (reply (geosearch_reply (VArr [article; VNull])))
           VUndef VUndef VUndef VUndef VUndef
           (geosearch_reply (VArr [article; VNull]))
           (VObj [("geosearch", VArr [article; VNull])]) [article; VNull]); reflexivity.
Defined.

(** ** wikimediaInfo: the flattened record *)

Lemma extmetadata_value_read (info ext : object) (field : string) (meta : object) :
  obj_get info "extmetadata" = VObj ext ->
  obj_get ext field = VObj meta ->
  extmetadata_value (VObj info) field = Ok (obj_get meta "value").
Proof.
  intros He Hf. unfold extmetadata_value. cbn [get_prop bind].
  rewrite He. cbn [get_prop bind]. rewrite Hf. reflexivity.
Qed.

Lemma wikimediaInfo_steps fetch pageid thumbWidth d (q pages page info : object)
      (more : list value) :
  fetch (GET (imageinfo_url [pageid] (default thumbWidth (VNum 600)))) = Ok d ->
  get_prop d "query" = Ok (VObj q) ->
  obj_get q "pages" = VObj pages ->
  obj_get pages (to_string pageid) = VObj page ->
  obj_get page "imageinfo" = VArr (VObj info :: more) ->
  wikimediaInfo fetch pageid thumbWidth
  = (name <- extmetadata_value (VObj info) "ObjectName" ;;
     date <- extmetadata_value (VObj info) "DateTime" ;;
     categories <- extmetadata_value (VObj info) "Categories" ;;
     description <- extmetadata_value (VObj info) "ImageDescription" ;;
     artistHtml <- extmetadata_value (VObj info) "Artist" ;;
     Ok (VObj (obj_assign
                 [("name", name); ("date", date); ("categories", categories);
                  ("description", description); ("artistHtml", artistHtml)]
                 info))).
Proof.
  intros Hf Hq Hpages Hpage Hinfo.
  unfold wikimediaInfo, wikimediaInfoMultiplePages. cbv zeta.
  assert (Hdd : default (default thumbWidth (VNum 600)) (VNum 600)
                = default thumbWidth (VNum 600)) by (destruct thumbWidth; reflexivity).
  rewrite Hdd. unfold imageinfo_url in Hf. rewrite Hf. cbn [bind].
  rewrite Hq. cbn [bind get_prop]. rewrite Hpages. cbn [bind get_prop].
  rewrite Hpage. cbn [bind get_prop]. rewrite Hinfo.
  reflexivity.
Qed.

(** X20: for a page the batch reply holds, with a first image-info entry
    whose [extmetadata] has the five fields [ObjectName], [DateTime],
    [Categories], [ImageDescription] and [Artist] as objects,
    [wikimediaInfo] returns a record with every field of the image-info
    entry as it is and, unless the entry has a field of that name, [name],
    [date], [categories], [description] and [artistHtml] set to the
    [value] of the five metadata fields. *)
Theorem wikimediaInfo_record fetch pageid thumbWidth d (q pages page info ext : object)
        (more : list value) (meta : string -> object) :
  fetch (GET (imageinfo_url [pageid] (default thumbWidth (VNum 600)))) = Ok d ->
  get_prop d "query" = Ok (VObj q) ->
  obj_get q "pages" = VObj pages ->
  obj_get pages (to_string pageid) = VObj page ->
  obj_get page "imageinfo" = VArr (VObj info :: more) ->
  obj_get info "extmetadata" = VObj ext ->
  (forall f, In f metadata_fields -> obj_get ext f = VObj (meta f)) ->
  distinct_keys info ->
  exists res,
    wikimediaInfo fetch pageid thumbWidth = Ok (VObj res) /\
    (forall k, obj_has info k = true -> obj_get res k = obj_get info k) /\
    (obj_has info "name" = false ->
     obj_get res "name" = obj_get (meta "ObjectName") "value") /\
    (obj_has info "date" = false ->
     obj_get res "date" = obj_get (meta "DateTime") "value") /\
    (obj_has info "categories" = false ->
     obj_get res "categories" = obj_get (meta "Categories") "value") /\
    (obj_has info "description" = false ->
     obj_get res "description" = obj_get (meta "ImageDescription") "value") /\
    (obj_has info "artistHtml" = false ->
     obj_get res "artistHtml" = obj_get (meta "Artist") "value").
Proof.
  intros Hf Hq Hpages Hpage Hinfo Hext Hmeta Hnd.
  rewrite (wikimediaInfo_steps fetch pageid thumbWidth d q pages page info more
             Hf Hq Hpages Hpage Hinfo).
  assert (Hread : forall f, In f metadata_fields ->
             extmetadata_value (VObj info) f = Ok (obj_get (meta f) "value")).
  { intros f Hin. apply (extmetadata_value_read info ext f (meta f) Hext (Hmeta f Hin)). }
  rewrite (Hread "ObjectName"), (Hread "DateTime"), (Hread "Categories"),
    (Hread "ImageDescription"), (Hread "Artist") by (simpl; tauto).
  cbn [bind]. eexists. split; [reflexivity|].
  split; [|repeat split]; try (intros k Hk); try intros Hno;
    rewrite obj_get_assign.
  - rewrite Hk. apply obj_get_rev, Hnd.
  - rewrite Hno. reflexivity.
  - rewrite Hno. reflexivity.
  - rewrite Hno. reflexivity.
  - rewrite Hno. reflexivity.
  - rewrite Hno. reflexivity.
Qed.

Lemma wikimediaInfo_record_witness :
  wikimediaInfo (reply (sample_pages sample_info)) (VNum 12) VUndef
  = Ok (VObj [("name", VStr "Bridge"); ("date", VStr "2020-01-01");
              ("categories", VStr "Bridges"); ("description", VStr "A bridge");
              ("artistHtml", VStr "<a>Ann</a>");
              ("url", VStr "https://upload.example/Bridge.jpg");
              ("extmetadata", sample_metadata)]) /\
  exists res,
    wikimediaInfo (reply (sample_pages sample_info)) (VNum 12) VUndef = Ok (VObj res) /\
    forall k, obj_has sample_info k = true -> obj_get res k = obj_get sample_info k.
Proof.
  split; [reflexivity|].
  destruct (wikimediaInfo_record (reply (sample_pages sample_info)) (VNum 12) VUndef
              (sample_pages sample_info)
              [("pages", VObj [("12", VObj [("pageid", VNum 12);
                                            ("imageinfo", VArr [VObj sample_info])])])]
              [("12", VObj [("pageid", VNum 12); ("imageinfo", VArr [VObj sample_info])])]
              [("pageid", VNum 12); ("imageinfo", VArr [VObj sample_info])]
              sample_info (own_props sample_metadata) []
              (fun f => match obj_get (own_props sample_metadata) f with
                        | VObj m => m
                        | _ => []
                        end))
    as (res & Hres & Hkeep & _).
  - reflexivity.
  - reflexivity.
  - reflexivity.
  - reflexivity.
  - reflexivity.
  - reflexivity.
  - intros f Hf. simpl in Hf.
    destruct Hf as [<-|[<-|[<-|[<-|[<-|[]]]]]]; reflexivity.
  - repeat constructor; simpl; intuition discriminate.
  - exists res. split; [exact Hres | exact Hkeep].
Defined.

Lemma extmetadata_value_throws (info : value) (field : string) (e : error) :
  extmetadata_value info field = Throw e -> e = TypeError.
Proof.
  unfold extmetadata_value. intros H.
  destruct (get_prop info "extmetadata") as [ext|e1] eqn:E1; cbn [bind] in H.
  - destruct (get_prop ext field) as [f|e2] eqn:E2; cbn [bind] in H.
    + eapply get_prop_throws_TypeError. exact H.
    + injection H as <-. eapply get_prop_throws_TypeError. exact E2.
  - injection H as <-. eapply get_prop_throws_TypeError. exact E1.
Qed.

Lemma extmetadata_value_missing (info ext : object) (field : string) :
  obj_get info "extmetadata" = VObj ext ->
  obj_has ext field = false ->
  extmetadata_value (VObj info) field = Throw TypeError.
Proof.
  intros He Hno. unfold extmetadata_value. cbn [get_prop bind].
  rewrite He. cbn [get_prop bind]. rewrite (obj_get_absent _ _ Hno). reflexivity.
Qed.

(** X21: [wikimediaInfo] has no fallback for incomplete image info: if the
    page has no [imageinfo], or an empty one, or if the first entry's
    [extmetadata] lacks one of [ObjectName], [DateTime], [Categories],
    [ImageDescription], [Artist], the call throws a [TypeError] and
    returns nothing. *)
Theorem wikimediaInfo_incomplete fetch pageid thumbWidth d (q pages page : object) :
  fetch (GET (imageinfo_url [pageid] (default thumbWidth (VNum 600)))) = Ok d ->
  get_prop d "query" = Ok (VObj q) ->
  obj_get q "pages" = VObj pages ->
  obj_get pages (to_string pageid) = VObj page ->
  obj_has page "imageinfo" = false
  \/ obj_get page "imageinfo" = VArr []
  \/ (exists info more ext field,
         obj_get page "imageinfo" = VArr (VObj info :: more) /\
         obj_get info "extmetadata" = VObj ext /\
         In field metadata_fields /\ obj_has ext field = false) ->
  wikimediaInfo fetch pageid thumbWidth = Throw TypeError.
Proof.
  intros Hf Hq Hpages Hpage Hbad.
  assert (Hdd : default (default thumbWidth (VNum 600)) (VNum 600)
                = default thumbWidth (VNum 600)) by (destruct thumbWidth; reflexivity).
  destruct Hbad as [Hno|[Hempty|(info & more & ext & field & Hinfo & Hext & Hin & Hmiss)]].
  - unfold wikimediaInfo, wikimediaInfoMultiplePages. cbv zeta.
    rewrite Hdd. unfold imageinfo_url in Hf. rewrite Hf. cbn [bind].
    rewrite Hq. cbn [bind get_prop]. rewrite Hpages. cbn [bind get_prop].
    rewrite Hpage. cbn [bind get_prop]. rewrite (obj_get_absent _ _ Hno). reflexivity.
  - unfold wikimediaInfo, wikimediaInfoMultiplePages. cbv zeta.
    rewrite Hdd. unfold imageinfo_url in Hf. rewrite Hf. cbn [bind].
    rewrite Hq. cbn [bind get_prop]. rewrite Hpages. cbn [bind get_prop].
    rewrite Hpage. cbn [bind get_prop]. rewrite Hempty. reflexivity.
  - rewrite (wikimediaInfo_steps fetch pageid thumbWidth d q pages page info more
               Hf Hq Hpages Hpage Hinfo).
    pose proof (extmetadata_value_missing info ext field Hext Hmiss) as Hthrow.
    assert (Hstep : forall f (k : value -> outcome value),
               (forall v, k v = Throw TypeError) ->
               bind (extmetadata_value (VObj info) f) k = Throw TypeError).
    { intros f k Hk. destruct (extmetadata_value (VObj info) f) as [v|e] eqn:E.
      - apply Hk.
      - apply extmetadata_value_throws in E. subst e. reflexivity. }
    simpl in Hin.
    destruct Hin as [<-|[<-|[<-|[<-|[<-|[]]]]]].
    + rewrite Hthrow. reflexivity.
    + apply Hstep. intros v1. rewrite Hthrow. reflexivity.
    + apply Hstep. intros v1. apply Hstep. intros v2. rewrite Hthrow. reflexivity.
    + apply Hstep. intros v1. apply Hstep. intros v2. apply Hstep. intros v3.
      rewrite Hthrow. reflexivity.
    + apply Hstep. intros v1. apply Hstep. intros v2. apply Hstep. intros v3.
      apply Hstep. intros v4. rewrite Hthrow. reflexivity.
Qed.

Lemma wikimediaInfo_incomplete_witness :
  wikimediaInfo
    (reply (sample_pages [("url", VStr "https://upload.example/Bridge.jpg");
                          ("extmetadata",
                           VObj [("ObjectName", VObj [("value", VStr "Bridge")]);
                                 ("DateTime", VObj [("value", VStr "2020-01-01")])])]))
    (VNum 12) VUndef = Throw TypeError.
Proof.
  eapply (wikimediaInfo_incomplete _ (VNum 12) VUndef).
  - reflexivity.
  - reflexivity.
  - reflexivity.
  - reflexivity.
  - right. right. do 4 eexists.
    split; [reflexivity|]. split; [reflexivity|].
    split; [right; right; left; reflexivity | reflexivity].
Defined.

(** ** wikimediaInfoMultiplePages *)

Lemma join_numbers (sep : string) (ids : list Z) :
  join sep (map VNum ids) = String.concat sep (map string_of_Z ids).
Proof.
  induction ids as [|z ids IH]; [reflexivity|].
  cbn [map join String.concat to_string].
  destruct ids as [|z' ids]; [reflexivity|].
  cbn [map] in *. rewrite IH. reflexivity.
Qed.

(** X22: for numeric page ids, [wikimediaInfoMultiplePages] asks in one
    request for the ids' decimal numerals separated by [|] at the given
    width (600 when omitted) and returns the body's [query.pages] as it is;
    a body without [query] makes it throw. *)
Theorem wikimediaInfoMultiplePages_batch fetch (ids : list Z) thumbWidth (body : object) :
  fetch (GET (commons_api ++ "?action=query&pageids="
                ++ String.concat "|" (map string_of_Z ids)
                ++ "&prop=imageinfo&iiprop=extmetadata|url&format=json&origin=*&iiurlwidth="
                ++ to_string (default thumbWidth (VNum 600)))) = Ok (VObj body) ->
  (forall q, obj_get body "query" = VObj q ->
             wikimediaInfoMultiplePages fetch (map VNum ids) thumbWidth
             = Ok (obj_get q "pages")) /\
  (obj_has body "query" = false ->
   wikimediaInfoMultiplePages fetch (map VNum ids) thumbWidth = Throw TypeError).
Proof.
  intros Hf. unfold wikimediaInfoMultiplePages. cbv zeta.
  rewrite join_numbers, Hf. cbn [bind get_prop]. split.
  - intros q Hq. rewrite Hq. reflexivity.
  - intros Hno. rewrite (obj_get_absent _ _ Hno). reflexivity.
Qed.

Lemma wikimediaInfoMultiplePages_batch_witness :
  wikimediaInfoMultiplePages (reply pages_reply) [VNum 12; VNum 13] VUndef
  = Ok (VObj [("12", VObj [("pageid", VNum 12)])]).
Proof.
  exact (proj1 (wikimediaInfoMultiplePages_batch (reply pages_reply) [12%Z; 13%Z] VUndef
                  (own_props pages_reply) eq_refl)
               [("pages", VObj [("12", VObj [("pageid", VNum 12)])])] eq_refl).
Defined.

(** ** Corners and boxes *)

Lemma get_prop_defined (v : value) (k : string) :
  nullish v = false -> exists x, get_prop v k = Ok x.
Proof.
  destruct v as [| |b|z|s|items|o]; intros H; try discriminate; cbn [get_prop]; eauto.
  - destruct (String.eqb k "length"); eauto. destruct (index_of_key k); eauto.
  - destruct (String.eqb k "length"); eauto. destruct (index_of_key k); eauto.
Qed.

Lemma get_prop_nullish (v : value) (k : string) :
  nullish v = true -> get_prop v k = Throw TypeError.
Proof.
  destruct v; intros H; try discriminate; reflexivity.
Qed.

(** X23: a corner that is [undefined] or [null] makes [wikimediaQuery] and
    [wikidataQuery] throw a [TypeError] before anything is requested,
    whatever the other corner is. *)
Theorem null_corner_throws fetch (northEast southWest limit : value) :
  nullish northEast = true \/ nullish southWest = true ->
  wikimediaQuery fetch northEast southWest limit = Throw TypeError /\
  wikidataQuery fetch northEast southWest limit = Throw TypeError.
Proof.
  intros H. unfold wikimediaQuery, wikidataQuery. cbv zeta.
  destruct (nullish northEast) eqn:Ene, (nullish southWest) eqn:Esw;
    try (destruct H; discriminate).
  - rewrite !(get_prop_nullish northEast), !(get_prop_nullish southWest) by assumption.
    split; reflexivity.
  - rewrite !(get_prop_nullish northEast) by assumption.
    destruct (get_prop_defined southWest "lng" Esw) as [w ->].
    destruct (get_prop_defined southWest "lat" Esw) as [s ->].
    split; reflexivity.
  - rewrite !(get_prop_nullish southWest) by assumption.
    destruct (get_prop_defined northEast "lat" Ene) as [n ->].
    split; reflexivity.
Qed.

Lemma null_corner_throws_witness :
  wikimediaQuery (reply (geosearch_reply (VArr [commons_hit]))) north_east VUndef VUndef
  = Throw TypeError /\
  wikidataQuery (reply (geosearch_reply (VArr [commons_hit]))) north_east VUndef VUndef
  = Throw TypeError.
Proof.
  apply null_corner_throws. right. reflexivity.
Defined.

Lemma build_quest_bbox_text (b b' : value) (cats : list value) (quest : string) :
  to_string b = to_string b' -> build_quest b cats quest = build_quest b' cats quest.
Proof.
  intros Hb. revert quest; induction cats as [|c cats IH]; intros quest; [reflexivity|].
  cbn [build_quest]. destruct (destructure_pair c) as [[k v]|e]; [|reflexivity].
  cbn [bind fst snd]. unfold category_clause, tag_filter. rewrite Hb. apply IH.
Qed.

(** X24: the box enters the query only as text: given as an array of
    coordinates it is printed with commas, so the call is the one with the
    joined string. *)
Theorem openstreetmapGetPOIs_bbox_array fetch (coords categories : list value) :
  openstreetmapGetPOIs fetch (VArr coords) categories
  = openstreetmapGetPOIs fetch (VStr (join "," coords)) categories.
Proof.
  unfold openstreetmapGetPOIs.
  rewrite (build_quest_bbox_text (VArr coords) (VStr (join "," coords))).
  - reflexivity.
  - apply to_string_array.
Qed.

(** ** Labels from [cuisine] *)











